(** * A shallow embedding of [Shared/airtable_manager.py]

    The module wraps a hosted tabular store.  Python objects are embedded
    as the inductive type [value], dictionaries as [gmap string _],
    raised exceptions as the [Raise] branch of [res], and the logger as a
    list of emitted lines returned next to each result. *)

From Stdlib Require Import ZArith String Ascii List Bool Lia.
From stdpp Require Import base option list gmap strings fin_maps.

Set Warnings "-register-all".
Open Scope string_scope.
Open Scope Z_scope.
Open Scope list_scope.

(** ** Python values *)

Module Py.

(** The JSON-like values a record field can hold. *)
Inductive value : Type :=
| VNone
| VBool (b : bool)
| VInt (z : Z)
| VStr (s : string)
| VList (l : list value).

(** Python truthiness ([bool(v)]). *)
Definition truthy (v : value) : bool :=
  match v with
  | VNone => false
  | VBool b => b
  | VInt z => negb (z =? 0)
  | VStr s => negb (String.eqb s EmptyString)
  | VList l => match l with [] => false | _ :: _ => true end
  end.

(** [isinstance(v, list)]. *)
Definition is_list (v : value) : bool :=
  match v with VList _ => true | _ => false end.

(** [v is True]. *)
Definition is_True (v : value) : bool :=
  match v with VBool true => true | _ => false end.

(** [v != s] for a string literal [s]. *)
Definition ne_str (v : value) (s : string) : bool :=
  match v with VStr t => negb (String.eqb t s) | _ => true end.

(** The exception classes the module can meet. *)
Inductive exn : Type :=
| ValueError (msg : string)
| KeyError (key : string)
| IndexError
| AttributeError
| TypeError
| RequestException (msg : string)
| OtherError (msg : string).

(** [isinstance(e, requests.exceptions.RequestException)]. *)
Definition is_request_exception (e : exn) : bool :=
  match e with RequestException _ => true | _ => false end.

(** A computation that returns or raises. *)
Inductive res (A : Type) : Type :=
| Ok (a : A)
| Raise (e : exn).
Arguments Ok {A} a.
Arguments Raise {A} e.

Definition raised {A} (m : res A) : bool :=
  match m with Ok _ => false | Raise _ => true end.

(** [d.get(k)]: the stored value, or [None]. *)
Definition dict_get (d : gmap string value) (k : string) : value :=
  default VNone (d !! k).

(** [d.get(k, dflt)]. *)
Definition dict_get_default (d : gmap string value) (k : string) (dflt : value) : value :=
  default dflt (d !! k).

(** [v[0]] on a value known to be a list. *)
Definition index0 (v : value) : res value :=
  match v with
  | VList (x :: _) => Ok x
  | VList [] => Raise IndexError
  | _ => Raise TypeError
  end.

(** [s.split("T")[0]]: the text before the first capital T. *)
Fixpoint split_T_0 (s : string) : string :=
  match s with
  | EmptyString => EmptyString
  | String c rest =>
      if Ascii.eqb c "T"%char then EmptyString else String c (split_T_0 rest)
  end.

End Py.

Import Py.

(** ** Logging and the effect type *)

Inductive level : Type := DEBUG | INFO | WARNING | ERROR.

(** One emitted line: its level and the constant head of its message. *)
Definition log_line : Type := (level * string)%type.

(** A method call returns or raises, and leaves the lines it logged. *)
Definition M (A : Type) : Type := (res A * list log_line)%type.

Definition ret {A} (a : A) : M A := (Ok a, []).

Definition lift {A} (r : res A) : M A := (r, []).

Definition mbind {A B} (m : M A) (k : A -> M B) : M B :=
  match m with
  | (Ok a, lg) => let '(r, lg') := k a in (r, lg ++ lg')
  | (Raise e, lg) => (Raise e, lg)
  end.

Definition logger (lv : level) (msg : string) : M unit := (Ok tt, [(lv, msg)]).

(** [try: body except Exception as e: handler e]. *)
Definition try_except {A} (body : M A) (handler : exn -> M A) : M A :=
  match body with
  | (Ok a, lg) => (Ok a, lg)
  | (Raise e, lg) => let '(r, lg') := handler e in (r, lg ++ lg')
  end.

Notation "'do' x <- m ; k" := (mbind m (fun x => k))
  (at level 10, x name, m at level 100, k at level 200, only parsing).
Notation "'do_' m ; k" := (mbind m (fun _ => k))
  (at level 10, m at level 100, k at level 200, only parsing).

Definition result_of {A} (m : M A) : res A := fst m.
Definition logged {A} (m : M A) : list log_line := snd m.

(** ** Records and the remote service *)

(** A record as the store returns it: a dict that may carry ["id"] and
    ["fields"]. *)
Record record : Type := mk_record {
  rec_id : option string;
  rec_fields : option (gmap string value)
}.

(** [record.get("fields", {})]. *)
Definition record_fields_or_empty (r : record) : gmap string value :=
  default ∅ (rec_fields r).

(** [record["id"]]. *)
Definition record_id_item (r : record) : res string :=
  match rec_id r with
  | Some i => Ok i
  | None => Raise (KeyError "id")
  end.

(** [record.get("id")]. *)
Definition record_id_get (r : record) : value :=
  match rec_id r with
  | Some i => VStr i
  | None => VNone
  end.

(** The keyword arguments of [table.all]. *)
Record all_request : Type := mk_all_request {
  req_view : option string;
  req_fields : option (list string);
  req_max_records : option Z
}.

(** The external service behind [self.api.table(base, table)]: listing a
    view and updating one record either return or raise. *)
Record service : Type := mk_service {
  table_all : option string -> option string -> all_request -> res (list record);
  table_update :
    option string -> option string -> string -> gmap string value -> bool -> res record
}.

(** ** The client *)

Module AirtableClient.

(** The attributes of an [AirtableClient] instance. *)
Record client : Type := mk_client {
  api_key : option string;
  base_id : option string;
  table_id : option string;
  view_name : option string
}.

(** [os.getenv(name)] over the process environment. *)
Definition getenv (env : gmap string string) (name : string) : option string :=
  env !! name.

(** Truthiness of an optional string: [None] and the empty string are
    falsy. *)
Definition truthy_str (o : option string) : bool :=
  match o with
  | Some s => negb (String.eqb s EmptyString)
  | None => false
  end.

(** One entry of [table_map]. *)
Record table_config : Type := mk_table_config {
  cfg_base_id : option string;
  cfg_table_id : option string;
  cfg_view : option string
}.

(** The lookup table built inside [__init__]. *)
Definition table_map (env : gmap string string) : gmap string table_config :=
  <[ "content_alexis" :=
       {| cfg_base_id := getenv env "ALEXIS_BASE_ID";
          cfg_table_id := getenv env "ALEXIS_CONTENT_TABLE_ID";
          cfg_view := Some "Unposted" |} ]>
  (<[ "content_maddison" :=
       {| cfg_base_id := getenv env "MADDISON_BASE_ID";
          cfg_table_id := getenv env "MADDISON_CONTENT_TABLE_ID";
          cfg_view := Some "Unposted" |} ]>
  (<[ "warmup_accounts" :=
       {| cfg_base_id := getenv env "IG_ARMY_BASE_ID";
          cfg_table_id := getenv env "IG_ARMY_WARMUP_ACCOUNTS_TABLE_ID";
          cfg_view := Some "Warmup" |} ]> ∅)).

Definition msg_missing_api_key : string :=
  "Missing AIRTABLE_API_KEY in environment variables".

Definition msg_unsupported (table_key : string) : string :=
  String.append "Unsupported table key: '" (String.append table_key "'").

Definition msg_missing_env (table_key : string) : string :=
  String.append "Missing required environment variables for table key: '"
    (String.append table_key "'").

(** [AirtableClient.__init__(self, table_key=None)]. *)
Definition __init__ (env : gmap string string) (table_key : option string) : res client :=
  let api_key := getenv env "AIRTABLE_API_KEY" in
  if negb (truthy_str api_key) then Raise (ValueError msg_missing_api_key)
  else
    let self :=
      {| api_key := api_key; base_id := None; table_id := None; view_name := None |} in
    match table_key with
    | Some key =>
        if truthy_str table_key then
          match table_map env !! key with
          | None => Raise (ValueError (msg_unsupported key))
          | Some config =>
              let self :=
                {| api_key := api_key;
                   base_id := cfg_base_id config;
                   table_id := cfg_table_id config;
                   view_name := cfg_view config |} in
              if negb (truthy_str (base_id self) && truthy_str (table_id self)
                       && truthy_str (view_name self))
              then Raise (ValueError (msg_missing_env key))
              else Ok self
          end
        else Ok self
    | None => Ok self
    end.

(** *** Due records *)

Record unposted_fields : Type := mk_unposted_fields {
  username : value;
  package_name : value;
  media_url : value
}.

(** One element of the list [get_unposted_records_for_today] returns. *)
Record unposted : Type := mk_unposted {
  unposted_id : string;
  unposted_payload : unposted_fields
}.

(** Line 87: [raw[0] if isinstance(raw, list) and raw else raw]. *)
Definition normalize_package (raw_package : value) : res value :=
  if is_list raw_package && truthy raw_package then index0 raw_package
  else Ok raw_package.

(** The [for record in records] loop of lines 72-99; [matching] is the
    list built so far. *)
Fixpoint unposted_loop (today_str : string) (max_count : Z)
    (records : list record) (matching : list unposted) : res (list unposted) :=
  match records with
  | [] => Ok matching
  | record :: rest =>
      let fields := record_fields_or_empty record in
      let schedule_raw := dict_get fields "Schedule Date" in
      if negb (truthy schedule_raw) then unposted_loop today_str max_count rest matching
      else
        match schedule_raw with
        | VStr raw =>
            let scheduled_date := split_T_0 raw in
            if negb (String.eqb scheduled_date today_str)
            then unposted_loop today_str max_count rest matching
            else
              let username := dict_get fields "Username" in
              let media_url := dict_get fields "Drive URL" in
              let raw_package := dict_get fields "Package Name" in
              match normalize_package raw_package with
              | Raise e => Raise e
              | Ok package_name =>
              match record_id_item record with
              | Raise e => Raise e
              | Ok rid =>
                  let matching' :=
                    matching ++
                    [ {| unposted_id := rid;
                         unposted_payload :=
                           {| username := username;
                              package_name := package_name;
                              media_url := media_url |} |} ] in
                  if Z.of_nat (length matching') >=? max_count then Ok matching'
                  else unposted_loop today_str max_count rest matching'
              end
              end
        | _ => Raise AttributeError
        end
  end.

(** [get_unposted_records_for_today(self, max_count=1)]; [today_str] is
    [datetime.now(bogota).strftime("%Y-%m-%d")]. *)
Definition get_unposted_records_for_today (svc : service) (self : client)
    (today_str : string) (max_count : Z) : M (list unposted) :=
  try_except
    (do_ logger INFO "Fetching up to max_count unposted records for today..." ;
     do records <- lift (table_all svc (base_id self) (table_id self)
                           {| req_view := view_name self;
                              req_fields := None;
                              req_max_records := None |}) ;
     lift (unposted_loop today_str max_count records []))
    (fun e =>
       do_ logger ERROR "Error fetching multiple unposted records" ;
       ret []).

(** *** Status updates *)

(** [update_record_fields(self, record_id, fields)]. *)
Definition update_record_fields (svc : service) (self : client)
    (record_id : string) (fields : gmap string value) : M (option record) :=
  try_except
    (do result <- lift (table_update svc (base_id self) (table_id self)
                          record_id fields true) ;
     do_ logger DEBUG "Updated record" ;
     ret (Some result))
    (fun e =>
       do_ logger ERROR "Failed to update record" ;
       ret None).

(** [mark_something_went_wrong_and_rotate(self, record_id)]. *)
Definition mark_something_went_wrong_and_rotate (svc : service) (self : client)
    (record_id : string) : M bool :=
  try_except
    (do_ update_record_fields svc self record_id
           (<[ "Something Went Wrong" := VBool true ]> ∅) ;
     do_ logger WARNING "Marked record as 'Something Went Wrong' = True" ;
     ret true)
    (fun e =>
       do_ logger ERROR "Failed to mark record with 'Something Went Wrong'" ;
       ret false).

(** *** The account pool *)

(** The dict [get_single_active_account] returns. *)
Record account : Type := mk_account {
  account_id : value;
  account_fields : gmap string value;
  account_base_id : string;
  account_table_id : string
}.

Definition account_columns : list string :=
  ["Account"; "Password"; "Email"; "Email Password"; "Package Name"; "Device ID"].

(** The request of line 144. *)
Definition account_request (view_id : string) : all_request :=
  {| req_view := Some view_id;
     req_fields := Some account_columns;
     req_max_records := Some 1 |}.

(** Lines 155-159 and 160-164:
    [d.get(k, [None])[0] if isinstance(d.get(k), list) else d.get(k)]. *)
Definition normalize_array_field (record_fields : gmap string value) (k : string)
    : res value :=
  if is_list (dict_get record_fields k)
  then index0 (dict_get_default record_fields k (VList [VNone]))
  else Ok (dict_get record_fields k).

(** [get_single_active_account(self, base_id, table_id, view_id)]. *)
Definition get_single_active_account (svc : service) (self : client)
    (base_id table_id view_id : string) : M (option account) :=
  try_except
    (do_ logger INFO "Fetching active IG account from Airtable" ;
     do_ logger INFO "Base | Table | View" ;
     do records <- lift (table_all svc (Some base_id) (Some table_id)
                           (account_request view_id)) ;
     match records with
     | [] =>
         do_ logger WARNING "No active accounts found in view" ;
         ret None
     | record :: _ =>
         let record_id := record_id_get record in
         let record_fields := record_fields_or_empty record in
         do pkg <- lift (normalize_array_field record_fields "Package Name") ;
         let record_fields := <[ "Package Name" := pkg ]> record_fields in
         do dev <- lift (normalize_array_field record_fields "Device ID") ;
         let record_fields := <[ "Device ID" := dev ]> record_fields in
         do_ logger INFO "Active IG account found:" ;
         do_ logger INFO "  - Account" ;
         do_ logger INFO "  - Package" ;
         do_ logger INFO "  - Device" ;
         ret (Some {| account_id := record_id;
                      account_fields := record_fields;
                      account_base_id := base_id;
                      account_table_id := table_id |})
     end)
    (fun e =>
       if is_request_exception e
       then do_ logger ERROR "Airtable API request failed" ; ret None
       else do_ logger ERROR "Unexpected error" ; ret None).

(** *** The warm-up queue *)

(** One element of the list [get_pending_warmup_records] returns. *)
Record warmup : Type := mk_warmup {
  warmup_record_id : string;
  warmup_username : value;
  warmup_device_id : value;
  warmup_package_name : value
}.

(** The inner function [flatten] of lines 203-206. *)
Definition flatten (v : value) : res value :=
  if is_list v && truthy v then index0 v else Ok v.

(** [len(result) >= max_count] for a truthy [max_count]. *)
Definition len_ge (n : nat) (max_count : value) : res bool :=
  match max_count with
  | VInt z => Ok (Z.of_nat n >=? z)
  | VBool b => Ok (Z.of_nat n >=? (if b then 1 else 0))
  | _ => Raise TypeError
  end.

(** [max_count and len(result) >= max_count], as the test of an [if]. *)
Definition reached (max_count : value) (n : nat) : res bool :=
  if truthy max_count then len_ge n max_count else Ok false.

(** The [for record in records] loop of lines 196-216. *)
Fixpoint warmup_loop (max_count : value) (records : list record)
    (result : list warmup) : res (list warmup) :=
  match records with
  | [] => Ok result
  | record :: rest =>
      let fields := record_fields_or_empty record in
      if ne_str (dict_get fields "Status") "Warmup"
      then warmup_loop max_count rest result
      else if is_True (dict_get fields "Daily Warmup Complete")
      then warmup_loop max_count rest result
      else
        match record_id_item record with
        | Raise e => Raise e
        | Ok rid =>
        match flatten (dict_get fields "Username") with
        | Raise e => Raise e
        | Ok u =>
        match flatten (dict_get fields "Device ID") with
        | Raise e => Raise e
        | Ok d =>
        match flatten (dict_get fields "Package Name") with
        | Raise e => Raise e
        | Ok p =>
            let result' :=
              result ++
              [ {| warmup_record_id := rid;
                   warmup_username := u;
                   warmup_device_id := d;
                   warmup_package_name := p |} ] in
            match reached max_count (length result') with
            | Raise e => Raise e
            | Ok true => Ok result'
            | Ok false => warmup_loop max_count rest result'
            end
        end end end end
  end.

(** [get_pending_warmup_records(self, max_count=None)]: no handler
    surrounds the body. *)
Definition get_pending_warmup_records (svc : service) (self : client)
    (max_count : value) : M (list warmup) :=
  do records <- lift (table_all svc (base_id self) (table_id self)
                        {| req_view := Some "Warmup";
                           req_fields := None;
                           req_max_records := None |}) ;
  lift (warmup_loop max_count records []).

End AirtableClient.

Import AirtableClient.

(** ** Reference behaviour used in the statements *)

(** The scalar a linked-record value stands for when it is a non-empty
    list; any other value is itself. *)
Definition first_or_self (v : value) : value :=
  match v with
  | VList (x :: _) => x
  | _ => v
  end.

(** The normalization rule as the specification words it: a one-element
    list gives its element, a non-list is unchanged, the empty list gives
    null. *)
Definition normalizes_as_specified (norm : value -> res value) : Prop :=
  (forall x, norm (VList [x]) = Ok x) /\
  (forall v, is_list v = false -> norm v = Ok v) /\
  norm (VList []) = Ok VNone.

(** The key of a record that has one. *)
Definition record_key (r : record) : string := default EmptyString (rec_id r).

Definition has_id (r : record) : bool :=
  match rec_id r with Some _ => true | None => false end.

(** A record is due on [today_str] when its Schedule Date is a non-empty
    string whose part before the first T is [today_str]. *)
Definition due_today (today_str : string) (r : record) : bool :=
  match dict_get (record_fields_or_empty r) "Schedule Date" with
  | VStr raw => negb (String.eqb raw EmptyString) && String.eqb (split_T_0 raw) today_str
  | _ => false
  end.

(** The Schedule Date of a record of a content view is a string when it
    is filled in. *)
Definition schedule_is_text (r : record) : bool :=
  match dict_get (record_fields_or_empty r) "Schedule Date" with
  | VStr _ => true
  | v => negb (truthy v)
  end.

(** A record as a content view delivers it. *)
Definition content_record (r : record) : bool := has_id r && schedule_is_text r.

(** The projection {id, username, package_name, media_url} of a record. *)
Definition unposted_entry (r : record) : unposted :=
  let fields := record_fields_or_empty r in
  {| unposted_id := record_key r;
     unposted_payload :=
       {| username := dict_get fields "Username";
          package_name := first_or_self (dict_get fields "Package Name");
          media_url := dict_get fields "Drive URL" |} |}.

(** The Status of a record is the sentinel 'Warmup'. *)
Definition status_is_warmup (r : record) : bool :=
  match dict_get (record_fields_or_empty r) "Status" with
  | VStr s => String.eqb s "Warmup"
  | _ => false
  end.

(** The completion flag 'Daily Warmup Complete' of a record is set. *)
Definition completion_flag_set (r : record) : bool :=
  match dict_get (record_fields_or_empty r) "Daily Warmup Complete" with
  | VBool b => b
  | _ => false
  end.

(** A record still waits for its warm-up. *)
Definition pending (r : record) : bool :=
  status_is_warmup r && negb (completion_flag_set r).

(** The projection {record_id, username, device_id, package_name}. *)
Definition warmup_entry (r : record) : warmup :=
  let fields := record_fields_or_empty r in
  {| warmup_record_id := record_key r;
     warmup_username := first_or_self (dict_get fields "Username");
     warmup_device_id := first_or_self (dict_get fields "Device ID");
     warmup_package_name := first_or_self (dict_get fields "Package Name") |}.

(** An environment variable counts as missing when it is unset or set to
    the empty string. *)
Definition missing (o : option string) : Prop := o = None \/ o = Some EmptyString.

(** The configurations [__init__] refuses: no API key, or a named
    configuration key that is unsupported or one of whose base id, table
    id and view name is missing. *)
Definition misconfigured (env : gmap string string) (table_key : option string) : Prop :=
  missing (getenv env "AIRTABLE_API_KEY") \/
  exists key, table_key = Some key /\ key <> EmptyString /\
    match table_map env !! key with
    | None => True
    | Some config =>
        missing (cfg_base_id config) \/ missing (cfg_table_id config) \/
        missing (cfg_view config)
    end.

Definition raises_ValueError {A} (r : res A) : Prop :=
  exists msg, r = Raise (ValueError msg).

(** No capital T occurs in the string. *)
Fixpoint no_T (s : string) : bool :=
  match s with
  | EmptyString => true
  | String c rest => negb (Ascii.eqb c "T"%char) && no_T rest
  end.

(** The Schedule Date of [r] is the text [date], free of capital T,
    either followed by a capital T and a time of day or standing alone
    (and then not empty). *)
Definition stamped (r : record) (date : string) : Prop :=
  no_T date = true /\
  ((exists time,
      dict_get (record_fields_or_empty r) "Schedule Date"
        = VStr (String.append date (String "T"%char time))) \/
   (date <> EmptyString /\
    dict_get (record_fields_or_empty r) "Schedule Date" = VStr date)).

(** The value can stand on the right of [len(result) >= _]: it is an
    integer or a boolean. *)
Definition is_number (v : value) : bool :=
  match v with
  | VInt _ | VBool _ => true
  | _ => false
  end.

(** The cap [max_count] is not yet reached by a result of [k] entries or
    fewer: it is falsy, or an integer above [k]. *)
Definition not_capped (max_count : value) (k : nat) : Prop :=
  truthy max_count = false \/ exists n, max_count = VInt n /\ Z.of_nat k < n.

(** The three names [table_map] knows. *)
Definition supported_key (key : string) : Prop :=
  key = "content_alexis" \/ key = "content_maddison" \/ key = "warmup_accounts".

(** ** Sample deployments *)

Module Fixtures.

(** A store that cannot be reached: every call raises. *)
Definition down_service : service :=
  {| table_all := fun _ _ _ => Raise (RequestException "connection refused");
     table_update := fun _ _ _ _ _ => Raise (RequestException "connection refused") |}.

(** A store whose every view holds [records]; it honours [max_records]
    and echoes an update back. *)
Definition static_service (records : list record) : service :=
  {| table_all := fun _ _ req =>
       Ok (match req_max_records req with
           | Some n => take (Z.to_nat n) records
           | None => records
           end);
     table_update := fun _ _ rid fields _ =>
       Ok {| rec_id := Some rid; rec_fields := Some fields |} |}.

Definition some_client : client :=
  {| api_key := Some "key";
     base_id := Some "appBase";
     table_id := Some "tblContent";
     view_name := Some "Unposted" |}.

(** A content record scheduled for 5 April 2025 whose Username is a
    one-element list. *)
Definition post1 : record :=
  {| rec_id := Some "recPost1";
     rec_fields := Some (<[ "Schedule Date" := VStr "2025-04-05T00:00:00.000Z" ]>
                        (<[ "Username" := VList [VStr "alice"] ]>
                        (<[ "Package Name" := VList [VStr "com.app.one"] ]>
                        (<[ "Drive URL" := VStr "https://drive/1" ]> ∅)))) |}.

(** A content record scheduled for the next day. *)
Definition post2 : record :=
  {| rec_id := Some "recPost2";
     rec_fields := Some (<[ "Schedule Date" := VStr "2025-04-06T00:00:00.000Z" ]>
                        (<[ "Username" := VStr "bob" ]> ∅)) |}.

(** A second content record scheduled for 5 April 2025. *)
Definition post3 : record :=
  {| rec_id := Some "recPost3";
     rec_fields := Some (<[ "Schedule Date" := VStr "2025-04-05T09:30:00.000Z" ]>
                        (<[ "Username" := VStr "carol" ]>
                        (<[ "Drive URL" := VList [VStr "https://drive/3"] ]> ∅))) |}.

(** An account in warm-up that has not run today. *)
Definition acct1 : record :=
  {| rec_id := Some "recAcct1";
     rec_fields := Some (<[ "Status" := VStr "Warmup" ]>
                        (<[ "Username" := VList [VStr "dana"] ]>
                        (<[ "Device ID" := VList [VStr "dev1"] ]> ∅))) |}.

(** An account in warm-up whose completion flag is set. *)
Definition acct2 : record :=
  {| rec_id := Some "recAcct2";
     rec_fields := Some (<[ "Status" := VStr "Warmup" ]>
                        (<[ "Daily Warmup Complete" := VBool true ]>
                        (<[ "Username" := VStr "erin" ]> ∅))) |}.

(** An account that left warm-up. *)
Definition acct3 : record :=
  {| rec_id := Some "recAcct3";
     rec_fields := Some (<[ "Status" := VStr "Active" ]>
                        (<[ "Username" := VStr "fay" ]> ∅)) |}.

(** A second account in warm-up that has not run today. *)
Definition acct4 : record :=
  {| rec_id := Some "recAcct4";
     rec_fields := Some (<[ "Status" := VStr "Warmup" ]>
                        (<[ "Daily Warmup Complete" := VBool false ]>
                        (<[ "Username" := VStr "gus" ]> ∅))) |}.

(** A pool account whose Package Name came back as an empty list. *)
Definition pool1 : record :=
  {| rec_id := Some "recPool1";
     rec_fields := Some (<[ "Account" := VStr "ig_user" ]>
                        (<[ "Password" := VStr "pw" ]>
                        (<[ "Package Name" := VList [] ]>
                        (<[ "Device ID" := VList [VStr "dev9"] ]> ∅)))) |}.

(** A pool account with both linked fields filled in. *)
Definition pool2 : record :=
  {| rec_id := Some "recPool2";
     rec_fields := Some (<[ "Account" := VStr "ig_other" ]>
                        (<[ "Package Name" := VList [VStr "com.app.two"] ]>
                        (<[ "Device ID" := VList [VStr "dev2"] ]> ∅))) |}.

(** A complete environment. *)
Definition full_env : gmap string string :=
  <[ "AIRTABLE_API_KEY" := "key" ]>
  (<[ "ALEXIS_BASE_ID" := "appAlexis" ]>
  (<[ "ALEXIS_CONTENT_TABLE_ID" := "tblAlexis" ]>
  (<[ "MADDISON_BASE_ID" := "appMaddison" ]>
  (<[ "MADDISON_CONTENT_TABLE_ID" := "tblMaddison" ]>
  (<[ "IG_ARMY_BASE_ID" := "appArmy" ]>
  (<[ "IG_ARMY_WARMUP_ACCOUNTS_TABLE_ID" := "tblWarmup" ]> ∅)))))).

(** A content record whose Schedule Date is a number. *)
Definition post_bad : record :=
  {| rec_id := Some "recPostBad";
     rec_fields := Some (<[ "Schedule Date" := VInt 20250405 ]> ∅) |}.

(** A pending warm-up record delivered without its id. *)
Definition acct_noid : record :=
  {| rec_id := None;
     rec_fields := Some (<[ "Status" := VStr "Warmup" ]> ∅) |}.

End Fixtures.

(** ** Basic facts about the effect type *)

Lemma try_except_never_raises {A} (body : M A) (handler : exn -> M A) :
  (forall e, raised (result_of (handler e)) = false) ->
  raised (result_of (try_except body handler)) = false.
Proof.
  intros Hh. destruct body as [[a | e] lg]; simpl; [reflexivity |].
  specialize (Hh e). destruct (handler e) as [r lg']. exact Hh.
Qed.

Lemma flatten_first_or_self (v : value) : flatten v = Ok (first_or_self v).
Proof. destruct v as [| b | z | s | [| x l]]; reflexivity. Qed.

Lemma normalize_package_first_or_self (v : value) :
  normalize_package v = Ok (first_or_self v).
Proof. destruct v as [| b | z | s | [| x l]]; reflexivity. Qed.

(** ** Status updates *)

Lemma update_record_fields_never_raises svc self rid fields :
  raised (result_of (update_record_fields svc self rid fields)) = false.
Proof. apply try_except_never_raises. intros e. reflexivity. Qed.

Lemma update_record_fields_failure svc self rid fields e :
  table_update svc (base_id self) (table_id self) rid fields true = Raise e ->
  update_record_fields svc self rid fields = (Ok None, [(ERROR, "Failed to update record")]).
Proof.
  intros H. unfold update_record_fields, try_except, mbind, lift. rewrite H. reflexivity.
Qed.

(** Whatever the store answers, the flagging call returns [True]: the
    update's failure was already absorbed by [update_record_fields]. *)
Lemma mark_always_True svc self rid :
  result_of (mark_something_went_wrong_and_rotate svc self rid) = Ok true.
Proof.
  unfold mark_something_went_wrong_and_rotate.
  pose proof (update_record_fields_never_raises svc self rid
                (<[ "Something Went Wrong" := VBool true ]> ∅)) as Hu.
  destruct (update_record_fields svc self rid _) as [[r | e] lg]; simpl in *.
  - reflexivity.
  - discriminate Hu.
Qed.

(** C1 (evaluated on the code): with the store unreachable the update of
    'Something Went Wrong' fails -- [update_record_fields] returns [None]
    and logs the failure -- and yet the flagging call returns [True], not
    [False]. *)
Theorem mark_returns_True_on_failed_update :
  table_update Fixtures.down_service (Some "appBase") (Some "tblContent") "rec1"
    (<[ "Something Went Wrong" := VBool true ]> ∅) true
    = Raise (RequestException "connection refused") /\
  update_record_fields Fixtures.down_service Fixtures.some_client "rec1"
    (<[ "Something Went Wrong" := VBool true ]> ∅)
    = (Ok None, [(ERROR, "Failed to update record")]) /\
  mark_something_went_wrong_and_rotate Fixtures.down_service Fixtures.some_client "rec1"
    = (Ok true,
       [(ERROR, "Failed to update record");
        (WARNING, "Marked record as 'Something Went Wrong' = True")]).
Proof. repeat split; reflexivity. Qed.

(** ** Failures at the call boundary *)

Lemma get_unposted_never_raises svc self today_str max_count :
  raised (result_of (get_unposted_records_for_today svc self today_str max_count)) = false.
Proof. apply try_except_never_raises. intros e. reflexivity. Qed.

Lemma get_single_active_account_never_raises svc self b t v :
  raised (result_of (get_single_active_account svc self b t v)) = false.
Proof.
  apply try_except_never_raises. intros e.
  destruct (is_request_exception e); reflexivity.
Qed.

(** A failed listing makes the due-record fetch return the empty list and
    log one error line. *)
Lemma get_unposted_on_failure svc self today_str max_count e :
  table_all svc (base_id self) (table_id self)
    {| req_view := view_name self; req_fields := None; req_max_records := None |}
    = Raise e ->
  result_of (get_unposted_records_for_today svc self today_str max_count) = Ok [] /\
  (ERROR, "Error fetching multiple unposted records")
    ∈ logged (get_unposted_records_for_today svc self today_str max_count).
Proof.
  intros H. unfold get_unposted_records_for_today, try_except, mbind, lift, logger.
  rewrite H. simpl. split; [reflexivity |]. set_solver.
Qed.

(** A failed listing makes the pool fetch return [None]. *)
Lemma get_single_active_account_on_failure svc self b t v e :
  table_all svc (Some b) (Some t) (account_request v) = Raise e ->
  result_of (get_single_active_account svc self b t v) = Ok None.
Proof.
  intros H. unfold get_single_active_account, try_except, mbind, lift, logger.
  rewrite H. simpl. destruct (is_request_exception e); reflexivity.
Qed.

(** The warm-up fetch has no handler: what the listing raises, it raises,
    and nothing is logged. *)
Lemma get_pending_warmup_records_propagates svc self max_count e :
  table_all svc (base_id self) (table_id self)
    {| req_view := Some "Warmup"; req_fields := None; req_max_records := None |}
    = Raise e ->
  get_pending_warmup_records svc self max_count = (Raise e, []).
Proof.
  intros H. unfold get_pending_warmup_records, mbind, lift. rewrite H. reflexivity.
Qed.

(** C2 (evaluated on the code): with the store unreachable, the due-record
    fetch, the field update and the pool fetch each absorb the failure
    and return an empty result, but fetching pending warm-up records
    lets the same failure escape to its caller, unlogged. *)
Theorem warmup_fetch_propagates_failure :
  result_of (get_unposted_records_for_today Fixtures.down_service
               Fixtures.some_client "2025-04-05" 1) = Ok [] /\
  result_of (update_record_fields Fixtures.down_service Fixtures.some_client
               "rec1" ∅) = Ok None /\
  result_of (get_single_active_account Fixtures.down_service Fixtures.some_client
               "appBase" "tblAccounts" "viwUnused") = Ok None /\
  get_pending_warmup_records Fixtures.down_service Fixtures.some_client VNone
    = (Raise (RequestException "connection refused"), []).
Proof. repeat split; reflexivity. Qed.

(** ** Normalization of linked-record values *)

(** Against C3 as stated: none of the three normalizations turns the
    empty list into null, so the rule of the specification describes
    none of them. *)
Lemma empty_list_not_normalized_to_null :
  ~ normalizes_as_specified normalize_package /\
  ~ normalizes_as_specified flatten /\
  ~ normalizes_as_specified
      (fun v => normalize_array_field (<[ "Package Name" := v ]> ∅) "Package Name").
Proof. repeat split; intros (_ & _ & H); discriminate H. Qed.

Lemma normalize_array_field_stored (d : gmap string value) (k : string) (v : value) :
  d !! k = Some v ->
  normalize_array_field d k = if is_list v then index0 v else Ok v.
Proof.
  intros H. unfold normalize_array_field, dict_get, dict_get_default. rewrite H.
  reflexivity.
Qed.

(** C3 (amended): in the due-record fetch ([normalize_package]), the pool
    fetch ([normalize_array_field]) and the warm-up fetch ([flatten]) a
    one-element list normalizes to its element and a non-list value [v]
    passes through unchanged; in the due-record and warm-up fetch an
    empty list also passes through unchanged, as an empty list. *)
Theorem normalization_cases (x v : value) (d : gmap string value) (k : string)
    (Hv : is_list v = false) :
  (normalize_package (VList [x]) = Ok x /\
   flatten (VList [x]) = Ok x /\
   normalize_array_field (<[ k := VList [x] ]> d) k = Ok x) /\
  (normalize_package v = Ok v /\
   flatten v = Ok v /\
   normalize_array_field (<[ k := v ]> d) k = Ok v /\
   normalize_array_field (delete k d) k = Ok VNone) /\
  (normalize_package (VList []) = Ok (VList []) /\
   flatten (VList []) = Ok (VList [])).
Proof.
  repeat split.
  - rewrite (normalize_array_field_stored _ k (VList [x])); [reflexivity |].
    apply lookup_insert_eq.
  - destruct v; try reflexivity. discriminate Hv.
  - destruct v; try reflexivity. discriminate Hv.
  - rewrite (normalize_array_field_stored _ k v); [| apply lookup_insert_eq].
    rewrite Hv. reflexivity.
  - unfold normalize_array_field, dict_get. rewrite lookup_delete_eq. reflexivity.
Qed.

Lemma normalization_cases_witness :
  (normalize_package (VList [VStr "com.app"]) = Ok (VStr "com.app") /\
   flatten (VList [VStr "com.app"]) = Ok (VStr "com.app") /\
   normalize_array_field (<[ "Package Name" := VList [VStr "com.app"] ]> ∅) "Package Name"
     = Ok (VStr "com.app")) /\
  (normalize_package (VStr "dev7") = Ok (VStr "dev7") /\
   flatten (VStr "dev7") = Ok (VStr "dev7") /\
   normalize_array_field (<[ "Package Name" := VStr "dev7" ]> ∅) "Package Name"
     = Ok (VStr "dev7") /\
   normalize_array_field (delete "Package Name" ∅) "Package Name" = Ok VNone) /\
  (normalize_package (VList []) = Ok (VList []) /\
   flatten (VList []) = Ok (VList [])).
Proof.
  apply (normalization_cases (VStr "com.app") (VStr "dev7") ∅ "Package Name").
  reflexivity.
Defined.

(** ** Due records *)

Lemma due_today_schedule (today_str : string) (r : record) :
  due_today today_str r = true ->
  exists raw, dict_get (record_fields_or_empty r) "Schedule Date" = VStr raw /\
              raw <> EmptyString /\ split_T_0 raw = today_str.
Proof.
  unfold due_today. destruct (dict_get _ _) as [| | | raw |]; try discriminate.
  intros H. apply andb_true_iff in H as [H1 H2].
  exists raw. split; [reflexivity |]. split.
  - intros ->. discriminate H1.
  - apply String.eqb_eq, H2.
Qed.

(** One turn of the loop on a content record: a record that is not due
    is skipped, a due one is appended and the cap is tested. *)
Lemma unposted_loop_step today_str max_count r rest matching :
  content_record r = true ->
  unposted_loop today_str max_count (r :: rest) matching =
    if due_today today_str r then
      if Z.of_nat (length (matching ++ [unposted_entry r])) >=? max_count
      then Ok (matching ++ [unposted_entry r])
      else unposted_loop today_str max_count rest (matching ++ [unposted_entry r])
    else unposted_loop today_str max_count rest matching.
Proof.
  intros Hwf. apply andb_true_iff in Hwf as [Hid Hs].
  unfold has_id in Hid. unfold schedule_is_text in Hs.
  unfold due_today, unposted_entry, record_key. simpl.
  unfold record_id_item. destruct (rec_id r) as [rid |]; [| discriminate Hid].
  rewrite normalize_package_first_or_self.
  destruct (dict_get (record_fields_or_empty r) "Schedule Date")
    as [| b | z | raw | l]; simpl in *.
  - reflexivity.
  - destruct b; [discriminate Hs | reflexivity].
  - destruct (z =? 0); [reflexivity | discriminate Hs].
  - destruct (String.eqb raw EmptyString); simpl; [reflexivity |].
    destruct (String.eqb (split_T_0 raw) today_str); reflexivity.
  - destruct l; [reflexivity | discriminate Hs].
Qed.

(** With a cap of at least one, the loop keeps the due records in view
    order and stops at the cap. *)
Lemma unposted_loop_exact today_str (n : nat) (records : list record) :
  forall matching : list unposted,
    Forall (fun r => content_record r = true) records ->
    (length matching < n)%nat ->
    unposted_loop today_str (Z.of_nat n) records matching =
      Ok (take n (matching ++
                  map unposted_entry (List.filter (due_today today_str) records))).
Proof.
  induction records as [| r rest IH]; intros matching Hwf Hlen.
  - simpl. rewrite app_nil_r, take_ge by lia. reflexivity.
  - apply Forall_cons in Hwf as [Hr Hrest].
    rewrite unposted_loop_step by exact Hr. simpl List.filter.
    destruct (due_today today_str r); [| apply IH; assumption].
    simpl map. rewrite length_app. simpl length.
    rewrite Z.geb_leb.
    destruct (Z.of_nat n <=? Z.of_nat (length matching + 1)) eqn:Hcap;
      [apply Z.leb_le in Hcap | apply Z.leb_gt in Hcap].
    + assert (n = (length matching + 1)%nat) as -> by lia.
      rewrite (cons_middle (unposted_entry r) matching (map _ _)), app_assoc.
      rewrite take_app_length' by (rewrite length_app; reflexivity). reflexivity.
    + rewrite IH; [| exact Hrest | rewrite length_app; simpl; lia].
      rewrite <- app_assoc. reflexivity.
Qed.

(** Whatever the cap, the loop on content records returns, and what it
    adds is a prefix of the due records' projections. *)
Lemma unposted_loop_prefix today_str (max_count : Z) (records : list record) :
  forall matching : list unposted,
    Forall (fun r => content_record r = true) records ->
    exists k : nat,
      unposted_loop today_str max_count records matching =
        Ok (matching ++
            take k (map unposted_entry (List.filter (due_today today_str) records))).
Proof.
  induction records as [| r rest IH]; intros matching Hwf.
  - exists 0%nat. simpl. rewrite app_nil_r. reflexivity.
  - apply Forall_cons in Hwf as [Hr Hrest].
    rewrite unposted_loop_step by exact Hr. simpl List.filter.
    destruct (due_today today_str r); [| apply IH; assumption].
    destruct (Z.of_nat (length (matching ++ [unposted_entry r])) >=? max_count).
    + exists 1%nat. simpl. rewrite take_0. reflexivity.
    + destruct (IH (matching ++ [unposted_entry r]) Hrest) as [k Hk].
      exists (S k). rewrite Hk. simpl. rewrite <- app_assoc. reflexivity.
Qed.

(** When the listing succeeds, the method returns what the loop returns. *)
Lemma get_unposted_on_success svc self today_str max_count records :
  table_all svc (base_id self) (table_id self)
    {| req_view := view_name self; req_fields := None; req_max_records := None |}
    = Ok records ->
  forall matching,
    unposted_loop today_str max_count records [] = Ok matching ->
    result_of (get_unposted_records_for_today svc self today_str max_count) = Ok matching.
Proof.
  intros H matching Hl.
  unfold get_unposted_records_for_today, try_except, mbind, lift, logger.
  rewrite H, Hl. reflexivity.
Qed.

(** For a cap of at least one the due-record fetch returns exactly the
    projections of the records due today, in view order, cut at the cap. *)
Lemma get_unposted_exact svc self today_str max_count records :
  table_all svc (base_id self) (table_id self)
    {| req_view := view_name self; req_fields := None; req_max_records := None |}
    = Ok records ->
  Forall (fun r => content_record r = true) records ->
  1 <= max_count ->
  result_of (get_unposted_records_for_today svc self today_str max_count) =
    Ok (take (Z.to_nat max_count)
          (map unposted_entry (List.filter (due_today today_str) records))).
Proof.
  intros H Hwf Hcap. apply (get_unposted_on_success _ _ _ _ records H).
  rewrite <- (Z2Nat.id max_count) at 1 by lia.
  rewrite unposted_loop_exact; [reflexivity | exact Hwf | simpl; lia].
Qed.

(** With a cap of zero or less the test after the first append already
    succeeds: the loop returns the first due record, if there is one. *)
Lemma unposted_loop_nonpositive_cap today_str (max_count : Z) (records : list record) :
  max_count <= 0 ->
  forall matching : list unposted,
    Forall (fun r => content_record r = true) records ->
    unposted_loop today_str max_count records matching =
      Ok (matching ++
          take 1 (map unposted_entry (List.filter (due_today today_str) records))).
Proof.
  intros Hcap. induction records as [| r rest IH]; intros matching Hwf.
  - simpl. rewrite app_nil_r. reflexivity.
  - apply Forall_cons in Hwf as [Hr Hrest].
    rewrite unposted_loop_step by exact Hr. simpl List.filter.
    destruct (due_today today_str r); [| apply IH; exact Hrest].
    rewrite Z.geb_leb.
    destruct (Z.leb_spec max_count (Z.of_nat (length (matching ++ [unposted_entry r]))));
      [| lia].
    simpl. rewrite take_0. reflexivity.
Qed.

Lemma get_unposted_nonpositive_cap svc self today_str max_count records :
  table_all svc (base_id self) (table_id self)
    {| req_view := view_name self; req_fields := None; req_max_records := None |}
    = Ok records ->
  Forall (fun r => content_record r = true) records ->
  max_count <= 0 ->
  result_of (get_unposted_records_for_today svc self today_str max_count) =
    Ok (take 1 (map unposted_entry (List.filter (due_today today_str) records))).
Proof.
  intros H Hwf Hcap. apply (get_unposted_on_success _ _ _ _ records H).
  rewrite unposted_loop_nonpositive_cap by assumption. reflexivity.
Qed.

(** On a view of content records the fetch returns, for every cap, the
    projections of the records due today, in view order, cut after
    [max_count] of them, or after the first when [max_count] is below
    one. *)
Lemma get_unposted_any_cap svc self today_str max_count records :
  table_all svc (base_id self) (table_id self)
    {| req_view := view_name self; req_fields := None; req_max_records := None |}
    = Ok records ->
  Forall (fun r => content_record r = true) records ->
  result_of (get_unposted_records_for_today svc self today_str max_count) =
    Ok (take (Z.to_nat (Z.max 1 max_count))
          (map unposted_entry (List.filter (due_today today_str) records))).
Proof.
  intros H Hwf. destruct (Z.le_gt_cases 1 max_count) as [Hcap | Hcap].
  - rewrite Z.max_r by lia. apply get_unposted_exact; assumption.
  - rewrite Z.max_l by lia. apply get_unposted_nonpositive_cap; [assumption .. | lia].
Qed.

(** C4 (evaluated on the code): asked for at most zero records while one
    record of the view is due today, the fetch returns that record, one
    more than the cap. *)
Theorem due_fetch_exceeds_zero_cap :
  due_today "2025-04-05" Fixtures.post1 = true /\
  result_of (get_unposted_records_for_today
               (Fixtures.static_service [Fixtures.post1; Fixtures.post2; Fixtures.post3])
               Fixtures.some_client "2025-04-05" 0)
    = Ok [unposted_entry Fixtures.post1] /\
  ~ (Z.of_nat (length [unposted_entry Fixtures.post1]) <= 0).
Proof. split; [reflexivity |]. split; [reflexivity |]. simpl. lia. Qed.

(** C8: when the listing of content records succeeds, the due-record
    fetch returns one projection per record due today, in view order and
    up to the cap (at least one), in which Username and Drive URL are the
    stored values exactly as stored and only Package Name is reduced to
    its first element when it is a non-empty list.  So whenever a record
    is due, the first one's projection is returned, and a Username or
    Drive URL stored as a list appears in it as that list. *)
Theorem due_fetch_normalizes_only_package svc self today_str max_count records
    (Hall : table_all svc (base_id self) (table_id self)
              {| req_view := view_name self; req_fields := None;
                 req_max_records := None |} = Ok records)
    (Hwf : Forall (fun r => content_record r = true) records) :
  result_of (get_unposted_records_for_today svc self today_str max_count) =
    Ok (take (Z.to_nat (Z.max 1 max_count))
          (map (fun r =>
                  {| unposted_id := record_key r;
                     unposted_payload :=
                       {| username := dict_get (record_fields_or_empty r) "Username";
                          package_name :=
                            first_or_self
                              (dict_get (record_fields_or_empty r) "Package Name");
                          media_url :=
                            dict_get (record_fields_or_empty r) "Drive URL" |} |})
               (List.filter (due_today today_str) records))) /\
  forall r due_rest,
    List.filter (due_today today_str) records = r :: due_rest ->
    exists u tail,
      result_of (get_unposted_records_for_today svc self today_str max_count)
        = Ok (u :: tail) /\
      unposted_id u = record_key r /\
      username (unposted_payload u) = dict_get (record_fields_or_empty r) "Username" /\
      media_url (unposted_payload u) = dict_get (record_fields_or_empty r) "Drive URL" /\
      package_name (unposted_payload u) =
        first_or_self (dict_get (record_fields_or_empty r) "Package Name") /\
      (forall l, dict_get (record_fields_or_empty r) "Username" = VList l ->
                 username (unposted_payload u) = VList l) /\
      (forall l, dict_get (record_fields_or_empty r) "Drive URL" = VList l ->
                 media_url (unposted_payload u) = VList l).
Proof.
  pose proof (get_unposted_any_cap svc self today_str max_count records Hall Hwf)
    as Hres.
  split; [exact Hres |].
  intros r due_rest Hdue. rewrite Hres, Hdue.
  destruct (Z.to_nat (Z.max 1 max_count)) as [| k] eqn:Hk; [lia |].
  simpl. eexists _, _. split; [reflexivity |].
  simpl. repeat split; intros l Hl; exact Hl.
Qed.

Lemma due_fetch_normalizes_only_package_witness :
  result_of (get_unposted_records_for_today
               (Fixtures.static_service [Fixtures.post1; Fixtures.post2; Fixtures.post3])
               Fixtures.some_client "2025-04-05" 5)
  = Ok [ {| unposted_id := "recPost1";
            unposted_payload :=
              {| username := VList [VStr "alice"];
                 package_name := VStr "com.app.one";
                 media_url := VStr "https://drive/1" |} |};
         {| unposted_id := "recPost3";
            unposted_payload :=
              {| username := VStr "carol";
                 package_name := VNone;
                 media_url := VList [VStr "https://drive/3"] |} |} ].
Proof.
  assert (Forall (fun r => content_record r = true)
            [Fixtures.post1; Fixtures.post2; Fixtures.post3])
    as Hwf by (repeat constructor).
  exact (proj1 (due_fetch_normalizes_only_package
                  (Fixtures.static_service
                     [Fixtures.post1; Fixtures.post2; Fixtures.post3])
                  Fixtures.some_client "2025-04-05" 5
                  [Fixtures.post1; Fixtures.post2; Fixtures.post3]
                  eq_refl Hwf)).
Defined.

(** A one-element list stored as Username, or as Drive URL, is returned
    as that list, next to a Package Name reduced to its element. *)
Example due_fetch_keeps_list_username :
  result_of (get_unposted_records_for_today
               (Fixtures.static_service [Fixtures.post1; Fixtures.post2; Fixtures.post3])
               Fixtures.some_client "2025-04-05" 5)
  = Ok [ {| unposted_id := "recPost1";
            unposted_payload :=
              {| username := VList [VStr "alice"];
                 package_name := VStr "com.app.one";
                 media_url := VStr "https://drive/1" |} |};
         {| unposted_id := "recPost3";
            unposted_payload :=
              {| username := VStr "carol";
                 package_name := VNone;
                 media_url := VList [VStr "https://drive/3"] |} |} ].
Proof. reflexivity. Qed.

(** ** The warm-up queue *)

Lemma pending_tests (r : record) :
  pending r =
    negb (ne_str (dict_get (record_fields_or_empty r) "Status") "Warmup")
    && negb (is_True (dict_get (record_fields_or_empty r) "Daily Warmup Complete")).
Proof.
  unfold pending, status_is_warmup, completion_flag_set, ne_str, is_True.
  destruct (dict_get _ "Status"); simpl; try reflexivity.
  rewrite negb_involutive.
  destruct (dict_get _ "Daily Warmup Complete") as [| [|] | | |]; reflexivity.
Qed.

(** One turn of the loop on a record that carries an id. *)
Lemma warmup_loop_step max_count r rest result :
  has_id r = true ->
  warmup_loop max_count (r :: rest) result =
    if pending r then
      match reached max_count (length (result ++ [warmup_entry r])) with
      | Raise e => Raise e
      | Ok true => Ok (result ++ [warmup_entry r])
      | Ok false => warmup_loop max_count rest (result ++ [warmup_entry r])
      end
    else warmup_loop max_count rest result.
Proof.
  intros Hid. unfold has_id in Hid. rewrite pending_tests.
  unfold warmup_entry, record_key. simpl. unfold record_id_item.
  destruct (rec_id r) as [rid |]; [| discriminate Hid].
  rewrite !flatten_first_or_self.
  destruct (ne_str _ _); simpl; [reflexivity |].
  destruct (is_True _); reflexivity.
Qed.

(** A falsy [max_count] never stops the loop. *)
Lemma warmup_loop_unbounded max_count (records : list record) :
  truthy max_count = false ->
  forall result : list warmup,
    Forall (fun r => has_id r = true) records ->
    warmup_loop max_count records result =
      Ok (result ++ map warmup_entry (List.filter pending records)).
Proof.
  intros Hmc. induction records as [| r rest IH]; intros result Hids.
  - simpl. rewrite app_nil_r. reflexivity.
  - apply Forall_cons in Hids as [Hr Hrest].
    rewrite warmup_loop_step by exact Hr. simpl List.filter.
    destruct (pending r); [| apply IH; exact Hrest].
    unfold reached. rewrite Hmc, IH by exact Hrest.
    simpl. rewrite <- app_assoc. reflexivity.
Qed.

(** A positive integer [max_count] stops the loop at that many entries. *)
Lemma warmup_loop_capped (n : nat) (records : list record) :
  forall result : list warmup,
    Forall (fun r => has_id r = true) records ->
    (length result < n)%nat ->
    warmup_loop (VInt (Z.of_nat n)) records result =
      Ok (take n (result ++ map warmup_entry (List.filter pending records))).
Proof.
  induction records as [| r rest IH]; intros result Hids Hlen.
  - simpl. rewrite app_nil_r, take_ge by lia. reflexivity.
  - apply Forall_cons in Hids as [Hr Hrest].
    rewrite warmup_loop_step by exact Hr. simpl List.filter.
    destruct (pending r); [| apply IH; assumption].
    assert (truthy (VInt (Z.of_nat n)) = true) as Ht.
    { simpl. destruct (Z.eqb_spec (Z.of_nat n) 0); [lia | reflexivity]. }
    unfold reached. rewrite Ht. unfold len_ge.
    rewrite length_app. simpl length. simpl map. rewrite Z.geb_leb.
    destruct (Z.of_nat n <=? Z.of_nat (length result + 1)) eqn:Hcap;
      [apply Z.leb_le in Hcap | apply Z.leb_gt in Hcap].
    + assert (n = (length result + 1)%nat) as -> by lia.
      rewrite (cons_middle (warmup_entry r) result (map _ _)), app_assoc.
      rewrite take_app_length' by (rewrite length_app; reflexivity). reflexivity.
    + rewrite IH; [| exact Hrest | rewrite length_app; simpl; lia].
      rewrite <- app_assoc. reflexivity.
Qed.

(** When the listing succeeds, the method returns what the loop returns. *)
Lemma get_pending_on_success svc self max_count records :
  table_all svc (base_id self) (table_id self)
    {| req_view := Some "Warmup"; req_fields := None; req_max_records := None |}
    = Ok records ->
  get_pending_warmup_records svc self max_count
    = (warmup_loop max_count records [], []).
Proof.
  intros H. unfold get_pending_warmup_records, mbind, lift. rewrite H.
  destruct (warmup_loop max_count records []); reflexivity.
Qed.

(** Against C5 as stated: the rule "at most [max_count] records when
    [max_count] is given" does not hold for a given [max_count] of zero;
    with one pending account in the view the fetch returns it. *)
Lemma warmup_fetch_zero_cap_not_applied :
  exists result,
    result_of (get_pending_warmup_records
                 (Fixtures.static_service [Fixtures.acct1; Fixtures.acct2])
                 Fixtures.some_client (VInt 0)) = Ok result /\
    ~ (Z.of_nat (length result) <= 0).
Proof. eexists. split; [reflexivity |]. simpl. lia. Qed.

(** C5 (amended): when the listing of the Warmup view succeeds, the fetch
    returns the projections of exactly the records whose Status is
    'Warmup' and whose completion flag is not set, in view order: all of
    them when [max_count] is omitted, and the first [n] of them when
    [max_count] is an integer [n] of at least one. *)
Theorem warmup_fetch_pending svc self records
    (Hall : table_all svc (base_id self) (table_id self)
              {| req_view := Some "Warmup"; req_fields := None;
                 req_max_records := None |} = Ok records)
    (Hids : Forall (fun r => has_id r = true) records) :
  result_of (get_pending_warmup_records svc self VNone) =
    Ok (map warmup_entry (List.filter pending records)) /\
  forall n : Z, 1 <= n ->
    result_of (get_pending_warmup_records svc self (VInt n)) =
      Ok (take (Z.to_nat n) (map warmup_entry (List.filter pending records))).
Proof.
  split.
  - rewrite (get_pending_on_success _ _ _ records Hall). simpl.
    rewrite warmup_loop_unbounded by (reflexivity || exact Hids). reflexivity.
  - intros n Hn. rewrite (get_pending_on_success _ _ _ records Hall). simpl.
    rewrite <- (Z2Nat.id n) at 1 by lia.
    rewrite warmup_loop_capped; [reflexivity | exact Hids | simpl; lia].
Qed.

Lemma warmup_fetch_pending_witness :
  result_of (get_pending_warmup_records
               (Fixtures.static_service
                  [Fixtures.acct1; Fixtures.acct2; Fixtures.acct3; Fixtures.acct4])
               Fixtures.some_client VNone) =
    Ok [warmup_entry Fixtures.acct1; warmup_entry Fixtures.acct4] /\
  result_of (get_pending_warmup_records
               (Fixtures.static_service
                  [Fixtures.acct1; Fixtures.acct2; Fixtures.acct3; Fixtures.acct4])
               Fixtures.some_client (VInt 1)) =
    Ok [warmup_entry Fixtures.acct1].
Proof.
  assert (Forall (fun r => has_id r = true)
            [Fixtures.acct1; Fixtures.acct2; Fixtures.acct3; Fixtures.acct4])
    as Hids by (repeat constructor).
  destruct (warmup_fetch_pending
              (Fixtures.static_service
                 [Fixtures.acct1; Fixtures.acct2; Fixtures.acct3; Fixtures.acct4])
              Fixtures.some_client
              [Fixtures.acct1; Fixtures.acct2; Fixtures.acct3; Fixtures.acct4]
              eq_refl Hids)
    as [Hall Hcap].
  split; [exact Hall | exact (Hcap 1 (Z.le_refl 1))].
Defined.

(** The account whose completion flag is set is left out although its
    Status is 'Warmup'. *)
Example warmup_fetch_skips_completed :
  status_is_warmup Fixtures.acct2 = true /\
  result_of (get_pending_warmup_records
               (Fixtures.static_service
                  [Fixtures.acct1; Fixtures.acct2; Fixtures.acct3; Fixtures.acct4])
               Fixtures.some_client VNone)
  = Ok [ {| warmup_record_id := "recAcct1"; warmup_username := VStr "dana";
            warmup_device_id := VStr "dev1"; warmup_package_name := VNone |};
         {| warmup_record_id := "recAcct4"; warmup_username := VStr "gus";
            warmup_device_id := VNone; warmup_package_name := VNone |} ].
Proof. split; reflexivity. Qed.

(** C9: a falsy [max_count] (zero, [False], the empty string, the empty
    list, [None]) gives the same outcome as omitting [max_count], and
    when the listing succeeds that outcome is every pending record of
    the view, not the empty list. *)
Theorem warmup_fetch_falsy_cap svc self max_count
    (Hfalsy : truthy max_count = false) :
  get_pending_warmup_records svc self max_count
    = get_pending_warmup_records svc self VNone /\
  forall records,
    table_all svc (base_id self) (table_id self)
      {| req_view := Some "Warmup"; req_fields := None; req_max_records := None |}
      = Ok records ->
    Forall (fun r => has_id r = true) records ->
    result_of (get_pending_warmup_records svc self max_count) =
      Ok (map warmup_entry (List.filter pending records)).
Proof.
  assert (forall records result,
             warmup_loop max_count records result = warmup_loop VNone records result)
    as Hsame.
  { induction records as [| r rest IH]; intros result; [reflexivity |].
    simpl. unfold reached. rewrite Hfalsy. simpl.
    destruct (ne_str _ _); [apply IH |].
    destruct (is_True _); [apply IH |].
    destruct (record_id_item r); [| reflexivity].
    rewrite !flatten_first_or_self. apply IH. }
  split.
  - unfold get_pending_warmup_records, mbind, lift.
    destruct (table_all _ _ _ _); [| reflexivity]. rewrite Hsame. reflexivity.
  - intros records Hall Hids. rewrite (get_pending_on_success _ _ _ records Hall).
    simpl. rewrite warmup_loop_unbounded by assumption. reflexivity.
Qed.

Lemma warmup_fetch_falsy_cap_witness :
  get_pending_warmup_records
    (Fixtures.static_service [Fixtures.acct1; Fixtures.acct2; Fixtures.acct4])
    Fixtures.some_client (VInt 0)
  = get_pending_warmup_records
      (Fixtures.static_service [Fixtures.acct1; Fixtures.acct2; Fixtures.acct4])
      Fixtures.some_client VNone /\
  result_of (get_pending_warmup_records
               (Fixtures.static_service [Fixtures.acct1; Fixtures.acct2; Fixtures.acct4])
               Fixtures.some_client (VInt 0)) =
    Ok [warmup_entry Fixtures.acct1; warmup_entry Fixtures.acct4].
Proof.
  destruct (warmup_fetch_falsy_cap
              (Fixtures.static_service [Fixtures.acct1; Fixtures.acct2; Fixtures.acct4])
              Fixtures.some_client (VInt 0) eq_refl)
    as [Hsame Hall].
  split; [exact Hsame |].
  apply (Hall [Fixtures.acct1; Fixtures.acct2; Fixtures.acct4] eq_refl).
  repeat constructor.
Defined.

(** With a cap of zero both pending accounts come back. *)
Example warmup_fetch_zero_returns_all :
  result_of (get_pending_warmup_records
               (Fixtures.static_service [Fixtures.acct1; Fixtures.acct2; Fixtures.acct4])
               Fixtures.some_client (VInt 0))
  = Ok [warmup_entry Fixtures.acct1; warmup_entry Fixtures.acct4].
Proof. reflexivity. Qed.

(** ** The account pool *)

(** The listing asks for one record at most. *)
Lemma account_request_one_record (view_id : string) :
  req_max_records (account_request view_id) = Some 1 /\
  req_view (account_request view_id) = Some view_id.
Proof. split; reflexivity. Qed.

(** An empty pool view gives [None], with a warning and no exception. *)
Lemma get_single_active_account_empty svc self b t v :
  table_all svc (Some b) (Some t) (account_request v) = Ok [] ->
  result_of (get_single_active_account svc self b t v) = Ok None /\
  (WARNING, "No active accounts found in view")
    ∈ logged (get_single_active_account svc self b t v).
Proof.
  intros H. unfold get_single_active_account, try_except, mbind, lift, logger.
  rewrite H. simpl. split; [reflexivity | set_solver].
Qed.

Lemma normalize_array_field_ok (d : gmap string value) (k : string) :
  dict_get d k <> VList [] ->
  normalize_array_field d k = Ok (first_or_self (dict_get d k)).
Proof.
  unfold normalize_array_field, dict_get, dict_get_default.
  destruct (d !! k) as [[| b | z | s | [| x l]] |]; simpl; intros H;
    try reflexivity.
  contradiction H; reflexivity.
Qed.

Lemma normalize_array_field_empty (d : gmap string value) (k : string) :
  d !! k = Some (VList []) -> normalize_array_field d k = Raise IndexError.
Proof. intros H. rewrite (normalize_array_field_stored d k (VList []) H). reflexivity. Qed.

(** Indexing is the only step of the normalization that can raise. *)
Lemma normalize_array_field_raises (d : gmap string value) (k : string) (e : exn) :
  normalize_array_field d k = Raise e -> e = IndexError.
Proof.
  unfold normalize_array_field, dict_get, dict_get_default.
  destruct (d !! k) as [[| b | z | s | [| x l]] |]; simpl; congruence.
Qed.

(** A first record whose two linked fields are not empty lists is
    returned with its id, its fields (the two linked fields reduced to
    scalars) and the base and table it came from. *)
Lemma get_single_active_account_found svc self b t v record rest :
  table_all svc (Some b) (Some t) (account_request v) = Ok (record :: rest) ->
  dict_get (record_fields_or_empty record) "Package Name" <> VList [] ->
  dict_get (record_fields_or_empty record) "Device ID" <> VList [] ->
  result_of (get_single_active_account svc self b t v) =
    Ok (Some
      {| account_id := record_id_get record;
         account_fields :=
           <[ "Device ID" :=
                first_or_self (dict_get (record_fields_or_empty record) "Device ID") ]>
           (<[ "Package Name" :=
                first_or_self (dict_get (record_fields_or_empty record) "Package Name") ]>
            (record_fields_or_empty record));
         account_base_id := b;
         account_table_id := t |}).
Proof.
  intros Hall Hp Hd.
  unfold get_single_active_account, try_except, mbind, lift, logger.
  rewrite Hall. simpl.
  rewrite (normalize_array_field_ok _ "Package Name" Hp).
  assert (dict_get (<[ "Package Name" :=
                        first_or_self (dict_get (record_fields_or_empty record)
                                         "Package Name") ]>
                    (record_fields_or_empty record)) "Device ID"
          = dict_get (record_fields_or_empty record) "Device ID") as Hsame.
  { unfold dict_get. rewrite lookup_insert_ne by discriminate. reflexivity. }
  rewrite normalize_array_field_ok by (rewrite Hsame; exact Hd).
  rewrite Hsame. reflexivity.
Qed.

(** C6 (evaluated on the code): the pool view holds one account whose
    Package Name is an empty list; the listing returns that record, and
    the fetch answers [None] as if the pool were empty instead of the
    record with its source location. *)
Theorem pool_fetch_loses_existing_record :
  table_all (Fixtures.static_service [Fixtures.pool1; Fixtures.pool2])
    (Some "appBase") (Some "tblAccounts") (account_request "viwUnused")
    = Ok [Fixtures.pool1] /\
  result_of (get_single_active_account
               (Fixtures.static_service [Fixtures.pool1; Fixtures.pool2])
               Fixtures.some_client "appBase" "tblAccounts" "viwUnused")
    = Ok None.
Proof. split; reflexivity. Qed.

(** The same call on an account whose linked fields are filled in. *)
Example pool_fetch_returns_record :
  result_of (get_single_active_account
               (Fixtures.static_service [Fixtures.pool2; Fixtures.pool1])
               Fixtures.some_client "appBase" "tblAccounts" "viwUnused")
  = Ok (Some {| account_id := VStr "recPool2";
                account_fields :=
                  <[ "Account" := VStr "ig_other" ]>
                  (<[ "Package Name" := VStr "com.app.two" ]>
                  (<[ "Device ID" := VStr "dev2" ]> ∅));
                account_base_id := "appBase";
                account_table_id := "tblAccounts" |}).
Proof. reflexivity. Qed.

(** C10: when the first record of the pool view has Package Name or
    Device ID present and equal to an empty list, indexing it raises,
    the generic handler catches that, and the whole call returns [None]. *)
Theorem empty_list_field_returns_None svc self b t v record rest
    (Hall : table_all svc (Some b) (Some t) (account_request v) = Ok (record :: rest))
    (Hempty : record_fields_or_empty record !! "Package Name" = Some (VList []) \/
              record_fields_or_empty record !! "Device ID" = Some (VList [])) :
  result_of (get_single_active_account svc self b t v) = Ok None /\
  (ERROR, "Unexpected error") ∈ logged (get_single_active_account svc self b t v).
Proof.
  unfold get_single_active_account, try_except, mbind, lift, logger.
  rewrite Hall. simpl.
  destruct Hempty as [Hp | Hd].
  - rewrite (normalize_array_field_empty _ _ Hp). simpl.
    split; [reflexivity | set_solver].
  - destruct (normalize_array_field (record_fields_or_empty record) "Package Name")
      as [pkg | e] eqn:Hpkg.
    + rewrite normalize_array_field_empty
        by (rewrite lookup_insert_ne by discriminate; exact Hd).
      simpl. split; [reflexivity | set_solver].
    + apply normalize_array_field_raises in Hpkg as ->.
      simpl. split; [reflexivity | set_solver].
Qed.

Lemma empty_list_field_returns_None_witness :
  result_of (get_single_active_account
               (Fixtures.static_service [Fixtures.pool1; Fixtures.pool2])
               Fixtures.some_client "appBase" "tblAccounts" "viwUnused") = Ok None /\
  (ERROR, "Unexpected error")
    ∈ logged (get_single_active_account
                (Fixtures.static_service [Fixtures.pool1; Fixtures.pool2])
                Fixtures.some_client "appBase" "tblAccounts" "viwUnused").
Proof.
  apply (empty_list_field_returns_None
           (Fixtures.static_service [Fixtures.pool1; Fixtures.pool2])
           Fixtures.some_client "appBase" "tblAccounts" "viwUnused"
           Fixtures.pool1 []).
  - reflexivity.
  - left. reflexivity.
Defined.

(** ** Construction *)

Lemma missing_falsy (o : option string) : missing o -> truthy_str o = false.
Proof. intros [-> | ->]; reflexivity. Qed.

Lemma nonempty_truthy (key : string) :
  key <> EmptyString -> truthy_str (Some key) = true.
Proof.
  intros H. simpl. destruct (String.eqb_spec key EmptyString); [contradiction | reflexivity].
Qed.

(** C7: construction raises a [ValueError] at once when the API key is
    missing, whatever else is supplied, and, when a named configuration
    key is supplied, when that key is unsupported or when its base id,
    table id or view name resolves to a missing value. *)
Theorem init_raises_when_misconfigured env table_key
    (Hbad : misconfigured env table_key) :
  raises_ValueError (__init__ env table_key).
Proof.
  unfold __init__, raises_ValueError.
  destruct (truthy_str (getenv env "AIRTABLE_API_KEY")) eqn:Hkey; simpl;
    [| eexists; reflexivity].
  destruct Hbad as [Hmiss | (key & -> & Hne & Hcfg)].
  - apply missing_falsy in Hmiss. congruence.
  - rewrite (nonempty_truthy key Hne).
    destruct (table_map env !! key) as [config |]; [| eexists; reflexivity].
    simpl.
    assert (truthy_str (cfg_base_id config) && truthy_str (cfg_table_id config)
            && truthy_str (cfg_view config) = false) as ->.
    { destruct Hcfg as [H | [H | H]]; apply missing_falsy in H; rewrite H;
        rewrite ?andb_false_r; reflexivity. }
    eexists; reflexivity.
Qed.

Lemma init_raises_when_misconfigured_witness :
  raises_ValueError (__init__ (delete "ALEXIS_CONTENT_TABLE_ID" Fixtures.full_env)
                       (Some "content_alexis")).
Proof.
  apply init_raises_when_misconfigured.
  right. exists "content_alexis". split; [reflexivity |]. split; [discriminate |].
  right. left. left. reflexivity.
Defined.

(** The three refusals on sample environments, with their messages, and
    an accepted configuration. *)
Example init_without_api_key :
  __init__ (delete "AIRTABLE_API_KEY" Fixtures.full_env) (Some "warmup_accounts")
  = Raise (ValueError "Missing AIRTABLE_API_KEY in environment variables").
Proof. reflexivity. Qed.

Example init_unsupported_key :
  __init__ Fixtures.full_env (Some "content_zoe")
  = Raise (ValueError "Unsupported table key: 'content_zoe'").
Proof. reflexivity. Qed.

Example init_missing_base_id :
  __init__ (delete "IG_ARMY_BASE_ID" Fixtures.full_env) (Some "warmup_accounts")
  = Raise (ValueError
             "Missing required environment variables for table key: 'warmup_accounts'").
Proof. reflexivity. Qed.

Example init_accepts_full_env :
  __init__ Fixtures.full_env (Some "warmup_accounts")
  = Ok {| api_key := Some "key";
          base_id := Some "appArmy";
          table_id := Some "tblWarmup";
          view_name := Some "Warmup" |} /\
  __init__ Fixtures.full_env None
  = Ok {| api_key := Some "key"; base_id := None; table_id := None; view_name := None |}.
Proof. split; reflexivity. Qed.

(** * Further properties of the client *)

(** ** Due records: failures, bounds and dates *)

Lemma split_T_0_timestamp (date time : string) :
  no_T date = true ->
  split_T_0 (String.append date (String "T"%char time)) = date.
Proof.
  induction date as [| c date IH]; simpl; intros H; [reflexivity |].
  apply andb_true_iff in H as [Hc Hrest].
  destruct (Ascii.eqb c "T"%char); [discriminate Hc |].
  rewrite IH by exact Hrest. reflexivity.
Qed.

Lemma split_T_0_date_only (date : string) :
  no_T date = true -> split_T_0 date = date.
Proof.
  induction date as [| c date IH]; simpl; intros H; [reflexivity |].
  apply andb_true_iff in H as [Hc Hrest].
  destruct (Ascii.eqb c "T"%char); [discriminate Hc |].
  rewrite IH by exact Hrest. reflexivity.
Qed.

(** The date test of a stamped record compares its date part with
    today's string. *)
Lemma due_today_stamped (today_str : string) (r : record) (date : string) :
  stamped r date -> due_today today_str r = String.eqb date today_str.
Proof.
  intros [Hdate [[time Hr] | [Hne Hr]]]; unfold due_today; rewrite Hr.
  - rewrite split_T_0_timestamp by exact Hdate. destruct date; reflexivity.
  - rewrite split_T_0_date_only by exact Hdate.
    destruct (String.eqb_spec date EmptyString); [contradiction | reflexivity].
Qed.

Lemma stamped_is_text (r : record) (date : string) :
  stamped r date -> schedule_is_text r = true.
Proof.
  intros [_ [[time Hr] | [_ Hr]]]; unfold schedule_is_text; rewrite Hr; reflexivity.
Qed.

(** The due records of a stamped view are those whose date part is
    today's string. *)
Lemma due_filter_stamped (today_str : string) (records : list record)
    (dates : list string) :
  Forall2 stamped records dates ->
  List.filter (due_today today_str) records =
    map fst (List.filter (fun p => String.eqb (snd p) today_str)
               (combine records dates)).
Proof.
  induction 1 as [| r date records dates Hr _ IH]; [reflexivity |].
  simpl. rewrite (due_today_stamped today_str r date Hr), IH.
  destruct (String.eqb date today_str); reflexivity.
Qed.

(** X1: the time of day never takes part in the date test of the fetch.
    On a view whose records carry ids and have as Schedule Date a date
    followed by a capital T and anything, or a bare non-empty date, the
    due-record fetch returns the projections of exactly the records
    whose date part is today's string, in view order and up to the cap. *)
Theorem due_fetch_ignores_time svc self today_str max_count
    (records : list record) (dates : list string)
    (Hall : table_all svc (base_id self) (table_id self)
              {| req_view := view_name self; req_fields := None;
                 req_max_records := None |} = Ok records)
    (Hids : Forall (fun r => has_id r = true) records)
    (Hdates : Forall2 stamped records dates) :
  result_of (get_unposted_records_for_today svc self today_str max_count) =
    Ok (take (Z.to_nat (Z.max 1 max_count))
          (map unposted_entry
             (map fst (List.filter (fun p => String.eqb (snd p) today_str)
                         (combine records dates))))).
Proof.
  rewrite <- (due_filter_stamped today_str records dates Hdates).
  apply get_unposted_any_cap; [exact Hall |].
  clear Hall. induction Hdates as [| r date records dates Hr _ IH].
  - constructor.
  - apply Forall_cons in Hids as [Hid Hrest]. constructor; [| apply IH; exact Hrest].
    unfold content_record. rewrite Hid, (stamped_is_text r date Hr). reflexivity.
Qed.

Lemma due_fetch_ignores_time_witness :
  result_of (get_unposted_records_for_today
               (Fixtures.static_service [Fixtures.post1; Fixtures.post2; Fixtures.post3])
               Fixtures.some_client "2025-04-05" 5)
  = Ok [unposted_entry Fixtures.post1; unposted_entry Fixtures.post3].
Proof.
  assert (Forall (fun r => has_id r = true)
            [Fixtures.post1; Fixtures.post2; Fixtures.post3])
    as Hids by (repeat constructor).
  assert (Forall2 stamped [Fixtures.post1; Fixtures.post2; Fixtures.post3]
            ["2025-04-05"; "2025-04-06"; "2025-04-05"]) as Hdates.
  { constructor;
      [split; [reflexivity | left; exists "00:00:00.000Z"; reflexivity] |].
    constructor;
      [split; [reflexivity | left; exists "00:00:00.000Z"; reflexivity] |].
    constructor;
      [split; [reflexivity | left; exists "09:30:00.000Z"; reflexivity] |].
    constructor. }
  exact (due_fetch_ignores_time
           (Fixtures.static_service [Fixtures.post1; Fixtures.post2; Fixtures.post3])
           Fixtures.some_client "2025-04-05" 5
           [Fixtures.post1; Fixtures.post2; Fixtures.post3]
           ["2025-04-05"; "2025-04-06"; "2025-04-05"]
           eq_refl Hids Hdates).
Defined.

(** X2: when listing the view fails, whatever the exception, the
    due-record fetch returns the empty list after logging the request
    and one error line. *)
Theorem due_fetch_absorbs_listing_failure svc self today_str max_count e
    (Hall : table_all svc (base_id self) (table_id self)
              {| req_view := view_name self; req_fields := None;
                 req_max_records := None |} = Raise e) :
  get_unposted_records_for_today svc self today_str max_count
    = (Ok [],
       [(INFO, "Fetching up to max_count unposted records for today...");
        (ERROR, "Error fetching multiple unposted records")]).
Proof.
  unfold get_unposted_records_for_today, try_except, mbind, lift, logger.
  rewrite Hall. reflexivity.
Qed.

Lemma due_fetch_absorbs_listing_failure_witness :
  get_unposted_records_for_today Fixtures.down_service Fixtures.some_client
    "2025-04-05" 3
    = (Ok [],
       [(INFO, "Fetching up to max_count unposted records for today...");
        (ERROR, "Error fetching multiple unposted records")]).
Proof.
  apply (due_fetch_absorbs_listing_failure Fixtures.down_service Fixtures.some_client
           "2025-04-05" 3 (RequestException "connection refused")).
  reflexivity.
Defined.

(** As long as the cap is not reached, the loop walks through a prefix of
    content records and carries on with what it collected. *)
Lemma unposted_loop_app today_str (max_count : Z) (pre rest : list record) :
  forall matching : list unposted,
    Forall (fun r => content_record r = true) pre ->
    Z.of_nat (length matching + length (List.filter (due_today today_str) pre))
      < max_count ->
    unposted_loop today_str max_count (pre ++ rest) matching =
      unposted_loop today_str max_count rest
        (matching ++ map unposted_entry (List.filter (due_today today_str) pre)).
Proof.
  induction pre as [| r pre IH]; intros matching Hwf Hlen.
  - simpl. rewrite app_nil_r. reflexivity.
  - apply Forall_cons in Hwf as [Hr Hpre].
    change ((r :: pre) ++ rest) with (r :: (pre ++ rest)).
    rewrite unposted_loop_step by exact Hr.
    simpl List.filter in *.
    destruct (due_today today_str r); [| apply IH; assumption].
    simpl length in Hlen. simpl map.
    rewrite Z.geb_leb.
    destruct (Z.leb_spec max_count (Z.of_nat (length (matching ++ [unposted_entry r]))))
      as [Hcap | Hcap].
    + rewrite length_app in Hcap. simpl in Hcap. lia.
    + rewrite IH; [| exact Hpre | rewrite length_app; simpl; lia].
      rewrite <- app_assoc. reflexivity.
Qed.

(** A record whose Schedule Date is filled in with something that is not
    text stops the loop with an [AttributeError]. *)
Lemma unposted_loop_not_text today_str max_count r rest matching :
  schedule_is_text r = false ->
  unposted_loop today_str max_count (r :: rest) matching = Raise AttributeError.
Proof.
  unfold schedule_is_text. simpl.
  destruct (dict_get (record_fields_or_empty r) "Schedule Date")
    as [| b | z | raw | l]; simpl; try discriminate.
  - destruct b; [reflexivity | discriminate].
  - destruct (z =? 0); [discriminate | reflexivity].
  - destruct l; [discriminate | reflexivity].
Qed.

(** A due record without an id stops the loop with a [KeyError]. *)
Lemma unposted_loop_no_id today_str max_count r rest matching :
  due_today today_str r = true ->
  has_id r = false ->
  unposted_loop today_str max_count (r :: rest) matching = Raise (KeyError "id").
Proof.
  unfold due_today, has_id. simpl. unfold record_id_item.
  destruct (dict_get (record_fields_or_empty r) "Schedule Date")
    as [| b | z | raw | l]; try discriminate.
  intros Hdue Hid. apply andb_true_iff in Hdue as [Hne Heq].
  simpl. rewrite Hne, Heq. simpl. rewrite normalize_package_first_or_self.
  destruct (rec_id r); [discriminate Hid | reflexivity].
Qed.

(** X3: one malformed record spoils the whole fetch.  When the view
    holds, after content records that do not fill the cap, a record whose
    Schedule Date is filled in but is not text, or a due record without
    an id, the fetch returns the empty list: the due records collected
    before it are dropped, and an error is logged. *)
Theorem due_fetch_drops_partial_result
    svc self today_str max_count (pre : list record) (bad : record)
    (rest : list record)
    (Hall : table_all svc (base_id self) (table_id self)
              {| req_view := view_name self; req_fields := None;
                 req_max_records := None |} = Ok (pre ++ bad :: rest))
    (Hpre : Forall (fun r => content_record r = true) pre)
    (Hroom : Z.of_nat (length (List.filter (due_today today_str) pre)) < max_count)
    (Hbad : schedule_is_text bad = false \/
            (due_today today_str bad = true /\ has_id bad = false)) :
  get_unposted_records_for_today svc self today_str max_count
    = (Ok [],
       [(INFO, "Fetching up to max_count unposted records for today...");
        (ERROR, "Error fetching multiple unposted records")]).
Proof.
  unfold get_unposted_records_for_today, try_except, mbind, lift, logger.
  rewrite Hall. rewrite unposted_loop_app by (simpl; assumption).
  destruct Hbad as [Htext | [Hdue Hid]].
  - rewrite unposted_loop_not_text by exact Htext. reflexivity.
  - rewrite unposted_loop_no_id by assumption. reflexivity.
Qed.

Lemma due_fetch_drops_partial_result_witness :
  get_unposted_records_for_today
    (Fixtures.static_service
       [Fixtures.post1; Fixtures.post2; Fixtures.post_bad; Fixtures.post3])
    Fixtures.some_client "2025-04-05" 5
    = (Ok [],
       [(INFO, "Fetching up to max_count unposted records for today...");
        (ERROR, "Error fetching multiple unposted records")]).
Proof.
  apply (due_fetch_drops_partial_result
           (Fixtures.static_service
              [Fixtures.post1; Fixtures.post2; Fixtures.post_bad; Fixtures.post3])
           Fixtures.some_client "2025-04-05" 5
           [Fixtures.post1; Fixtures.post2] Fixtures.post_bad [Fixtures.post3]).
  - reflexivity.
  - repeat constructor.
  - vm_compute. reflexivity.
  - left. reflexivity.
Defined.

(** X4: with a cap of at least one and a view of content records, the
    fetch returns the projections of the records due today, in view
    order, cut after the first [max_count] of them, and logs nothing but
    the request. *)
Theorem due_fetch_first_due_records svc self today_str max_count records
    (Hall : table_all svc (base_id self) (table_id self)
              {| req_view := view_name self; req_fields := None;
                 req_max_records := None |} = Ok records)
    (Hwf : Forall (fun r => content_record r = true) records)
    (Hcap : 1 <= max_count) :
  get_unposted_records_for_today svc self today_str max_count
    = (Ok (take (Z.to_nat max_count)
             (map unposted_entry (List.filter (due_today today_str) records))),
       [(INFO, "Fetching up to max_count unposted records for today...")]).
Proof.
  unfold get_unposted_records_for_today, try_except, mbind, lift, logger.
  rewrite Hall. rewrite <- (Z2Nat.id max_count) at 1 by lia.
  rewrite unposted_loop_exact; [reflexivity | exact Hwf | simpl; lia].
Qed.

Lemma due_fetch_first_due_records_witness :
  get_unposted_records_for_today
    (Fixtures.static_service [Fixtures.post1; Fixtures.post2; Fixtures.post3])
    Fixtures.some_client "2025-04-05" 1
    = (Ok [unposted_entry Fixtures.post1],
       [(INFO, "Fetching up to max_count unposted records for today...")]).
Proof.
  apply (due_fetch_first_due_records
           (Fixtures.static_service [Fixtures.post1; Fixtures.post2; Fixtures.post3])
           Fixtures.some_client "2025-04-05" 1
           [Fixtures.post1; Fixtures.post2; Fixtures.post3]).
  - reflexivity.
  - repeat constructor.
  - lia.
Defined.

(** Whatever the records look like, a loop that returns has collected at
    most [max 1 max_count] entries. *)
Lemma unposted_loop_bound today_str (max_count : Z) (records : list record) :
  forall matching result : list unposted,
    unposted_loop today_str max_count records matching = Ok result ->
    Z.of_nat (length matching) < Z.max 1 max_count ->
    Z.of_nat (length result) <= Z.max 1 max_count.
Proof.
  induction records as [| r rest IH]; intros matching result Hloop Hlen.
  - simpl in Hloop. injection Hloop as <-. lia.
  - simpl in Hloop.
    destruct (truthy (dict_get (record_fields_or_empty r) "Schedule Date"));
      simpl in Hloop; [| eapply IH; eassumption].
    destruct (dict_get (record_fields_or_empty r) "Schedule Date")
      as [| b | z | raw | l]; try discriminate Hloop.
    destruct (String.eqb (split_T_0 raw) today_str); simpl in Hloop;
      [| eapply IH; eassumption].
    rewrite normalize_package_first_or_self in Hloop.
    destruct (record_id_item r) as [rid | e]; [| discriminate Hloop].
    rewrite Z.geb_leb in Hloop.
    match type of Hloop with
    | (if Z.leb ?a ?b then _ else _) = _ =>
        destruct (Z.leb_spec a b) as [Hcap | Hcap]
    end.
    + injection Hloop as <-. rewrite length_app. simpl. lia.
    + eapply IH; [exact Hloop |]. rewrite length_app in *. simpl in *. lia.
Qed.

(** X5: for every store, every client and every [max_count], the
    due-record fetch returns a list, and that list has at most
    [max_count] entries, or one entry when [max_count] is below one. *)
Theorem due_fetch_size_bound svc self today_str max_count :
  exists result,
    result_of (get_unposted_records_for_today svc self today_str max_count) = Ok result /\
    Z.of_nat (length result) <= Z.max 1 max_count.
Proof.
  unfold get_unposted_records_for_today, try_except, mbind, lift, logger.
  destruct (table_all svc _ _ _) as [records | e]; simpl.
  - destruct (unposted_loop today_str max_count records []) as [result | e] eqn:Hloop;
      simpl.
    + exists result. split; [reflexivity |].
      apply (unposted_loop_bound _ _ _ _ _ Hloop). simpl. lia.
    + exists []. split; [reflexivity |]. simpl. lia.
  - exists []. split; [reflexivity |]. simpl. lia.
Qed.

(** ** Status updates: outcome and log *)

(** X6: [update_record_fields] never raises; it returns the store's
    answer when the update went through and [None] when it raised, with
    one debug line in the first case and one error line in the second. *)
Theorem update_record_fields_outcome svc self rid fields :
  update_record_fields svc self rid fields =
    match table_update svc (base_id self) (table_id self) rid fields true with
    | Ok result => (Ok (Some result), [(DEBUG, "Updated record")])
    | Raise _ => (Ok None, [(ERROR, "Failed to update record")])
    end.
Proof.
  unfold update_record_fields, try_except, mbind, lift, logger, ret.
  destruct (table_update svc _ _ rid fields true); reflexivity.
Qed.

(** X7: the flagging call sends exactly the field 'Something Went Wrong'
    = True to [update_record_fields], always returns [True], and always
    closes its log with the "marked" warning -- after the debug line of a
    successful update as well as after the error line of a failed one. *)
Theorem mark_outcome svc self rid :
  mark_something_went_wrong_and_rotate svc self rid =
    (Ok true,
     logged (update_record_fields svc self rid
               (<[ "Something Went Wrong" := VBool true ]> ∅))
     ++ [(WARNING, "Marked record as 'Something Went Wrong' = True")]) /\
  (logged (mark_something_went_wrong_and_rotate svc self rid) =
     [(DEBUG, "Updated record");
      (WARNING, "Marked record as 'Something Went Wrong' = True")] \/
   logged (mark_something_went_wrong_and_rotate svc self rid) =
     [(ERROR, "Failed to update record");
      (WARNING, "Marked record as 'Something Went Wrong' = True")]).
Proof.
  unfold mark_something_went_wrong_and_rotate, update_record_fields,
    try_except, mbind, lift, logger, ret, logged.
  destruct (table_update svc _ _ rid _ true); simpl; split; auto.
Qed.

(** ** The account pool: found, empty, failed *)

(** X8: when the listing returns at least one record and neither linked
    field of the first one is an empty list, the pool fetch returns that
    record's id, its fields with Package Name and Device ID replaced by
    their first element (or by themselves when they are not lists, null
    when absent), and the base and table passed in. *)
Theorem pool_fetch_found svc self b t v record rest
    (Hall : table_all svc (Some b) (Some t) (account_request v) = Ok (record :: rest))
    (Hpkg : dict_get (record_fields_or_empty record) "Package Name" <> VList [])
    (Hdev : dict_get (record_fields_or_empty record) "Device ID" <> VList []) :
  result_of (get_single_active_account svc self b t v) =
    Ok (Some
      {| account_id := record_id_get record;
         account_fields :=
           <[ "Device ID" :=
                first_or_self (dict_get (record_fields_or_empty record) "Device ID") ]>
           (<[ "Package Name" :=
                first_or_self (dict_get (record_fields_or_empty record) "Package Name") ]>
            (record_fields_or_empty record));
         account_base_id := b;
         account_table_id := t |}).
Proof. apply (get_single_active_account_found _ _ _ _ _ _ rest); assumption. Qed.

Lemma pool_fetch_found_witness :
  result_of (get_single_active_account
               (Fixtures.static_service [Fixtures.pool2; Fixtures.pool1])
               Fixtures.some_client "appBase" "tblAccounts" "viwUnused") =
    Ok (Some
      {| account_id := VStr "recPool2";
         account_fields :=
           <[ "Device ID" := VStr "dev2" ]>
           (<[ "Package Name" := VStr "com.app.two" ]>
            (record_fields_or_empty Fixtures.pool2));
         account_base_id := "appBase";
         account_table_id := "tblAccounts" |}).
Proof.
  apply (pool_fetch_found
           (Fixtures.static_service [Fixtures.pool2; Fixtures.pool1])
           Fixtures.some_client "appBase" "tblAccounts" "viwUnused"
           Fixtures.pool2 []).
  - reflexivity.
  - discriminate.
  - discriminate.
Defined.

(** X9: whatever the store answers, an account the pool fetch returns
    comes from the first listed record, carries the base and table that
    were passed in, always has the keys Package Name and Device ID, and
    has every other field exactly as the record had it. *)
Theorem pool_fetch_result_shape svc self b t v (acct : account)
    (Hres : result_of (get_single_active_account svc self b t v) = Ok (Some acct)) :
  exists record rest,
    table_all svc (Some b) (Some t) (account_request v) = Ok (record :: rest) /\
    account_id acct = record_id_get record /\
    account_base_id acct = b /\
    account_table_id acct = t /\
    is_Some (account_fields acct !! "Package Name") /\
    is_Some (account_fields acct !! "Device ID") /\
    forall k, k <> "Package Name" -> k <> "Device ID" ->
      account_fields acct !! k = record_fields_or_empty record !! k.
Proof.
  revert Hres.
  unfold get_single_active_account, try_except, mbind, lift, logger, ret, result_of.
  destruct (table_all svc (Some b) (Some t) (account_request v))
    as [[| record rest] | e]; simpl.
  - discriminate.
  - destruct (normalize_array_field (record_fields_or_empty record) "Package Name")
      as [pkg | e1]; simpl.
    + destruct (normalize_array_field
                  (<[ "Package Name" := pkg ]> (record_fields_or_empty record))
                  "Device ID") as [dev | e2]; simpl.
      * intros [= <-]. exists record, rest. simpl.
        repeat split.
        -- rewrite lookup_insert_ne by discriminate. rewrite lookup_insert_eq. eauto.
        -- rewrite lookup_insert_eq. eauto.
        -- intros k Hk1 Hk2. rewrite !lookup_insert_ne by congruence. reflexivity.
      * destruct (is_request_exception e2); discriminate.
    + destruct (is_request_exception e1); discriminate.
  - destruct (is_request_exception e); discriminate.
Qed.

Lemma pool_fetch_result_shape_witness :
  exists record rest,
    table_all (Fixtures.static_service [Fixtures.pool2; Fixtures.pool1])
      (Some "appBase") (Some "tblAccounts") (account_request "viwUnused")
      = Ok (record :: rest) /\
    VStr "recPool2" = record_id_get record /\
    "appBase" = "appBase" /\
    "tblAccounts" = "tblAccounts" /\
    is_Some ((<[ "Account" := VStr "ig_other" ]>
              (<[ "Package Name" := VStr "com.app.two" ]>
              (<[ "Device ID" := VStr "dev2" ]> (∅ : gmap string value))))
             !! "Package Name") /\
    is_Some ((<[ "Account" := VStr "ig_other" ]>
              (<[ "Package Name" := VStr "com.app.two" ]>
              (<[ "Device ID" := VStr "dev2" ]> (∅ : gmap string value))))
             !! "Device ID") /\
    forall k, k <> "Package Name" -> k <> "Device ID" ->
      (<[ "Account" := VStr "ig_other" ]>
       (<[ "Package Name" := VStr "com.app.two" ]>
       (<[ "Device ID" := VStr "dev2" ]> (∅ : gmap string value)))) !! k
      = record_fields_or_empty record !! k.
Proof.
  exact (pool_fetch_result_shape
           (Fixtures.static_service [Fixtures.pool2; Fixtures.pool1])
           Fixtures.some_client "appBase" "tblAccounts" "viwUnused"
           {| account_id := VStr "recPool2";
              account_fields :=
                <[ "Account" := VStr "ig_other" ]>
                (<[ "Package Name" := VStr "com.app.two" ]>
                (<[ "Device ID" := VStr "dev2" ]> ∅));
              account_base_id := "appBase";
              account_table_id := "tblAccounts" |}
           eq_refl).
Defined.

(** X10: when the listing raises, the pool fetch returns [None] and its
    error line tells the two handlers apart: "Airtable API request
    failed" for a request exception, "Unexpected error" for any other. *)
Theorem pool_fetch_absorbs_listing_failure svc self b t v e
    (Hall : table_all svc (Some b) (Some t) (account_request v) = Raise e) :
  get_single_active_account svc self b t v =
    (Ok None,
     [(INFO, "Fetching active IG account from Airtable");
      (INFO, "Base | Table | View");
      (ERROR, if is_request_exception e
              then "Airtable API request failed" else "Unexpected error")]).
Proof.
  unfold get_single_active_account, try_except, mbind, lift, logger, ret.
  rewrite Hall. simpl. destruct (is_request_exception e); reflexivity.
Qed.

Lemma pool_fetch_absorbs_listing_failure_witness :
  get_single_active_account Fixtures.down_service Fixtures.some_client
    "appBase" "tblAccounts" "viwUnused" =
    (Ok None,
     [(INFO, "Fetching active IG account from Airtable");
      (INFO, "Base | Table | View");
      (ERROR, "Airtable API request failed")]).
Proof.
  apply (pool_fetch_absorbs_listing_failure Fixtures.down_service Fixtures.some_client
           "appBase" "tblAccounts" "viwUnused" (RequestException "connection refused")).
  reflexivity.
Defined.

(** X11: an empty pool view gives [None] with a warning and no error
    line. *)
Theorem pool_fetch_empty_view svc self b t v
    (Hall : table_all svc (Some b) (Some t) (account_request v) = Ok []) :
  get_single_active_account svc self b t v =
    (Ok None,
     [(INFO, "Fetching active IG account from Airtable");
      (INFO, "Base | Table | View");
      (WARNING, "No active accounts found in view")]).
Proof.
  unfold get_single_active_account, try_except, mbind, lift, logger, ret.
  rewrite Hall. reflexivity.
Qed.

Lemma pool_fetch_empty_view_witness :
  get_single_active_account (Fixtures.static_service []) Fixtures.some_client
    "appBase" "tblAccounts" "viwUnused" =
    (Ok None,
     [(INFO, "Fetching active IG account from Airtable");
      (INFO, "Base | Table | View");
      (WARNING, "No active accounts found in view")]).
Proof.
  apply (pool_fetch_empty_view (Fixtures.static_service []) Fixtures.some_client
           "appBase" "tblAccounts" "viwUnused").
  reflexivity.
Defined.

(** ** The warm-up queue: what escapes to the caller *)

Lemma reached_not_capped (max_count : value) (k j : nat) :
  not_capped max_count k -> (j <= k)%nat -> reached max_count j = Ok false.
Proof.
  intros [Hfalsy | (n & -> & Hn)] Hj; unfold reached.
  - rewrite Hfalsy. reflexivity.
  - simpl. destruct (Z.eqb_spec n 0); [lia |]. simpl. rewrite Z.geb_leb.
    destruct (Z.leb_spec n (Z.of_nat j)); [lia | reflexivity].
Qed.

(** As long as the cap is not reached, the loop walks through a prefix of
    records that carry an id and carries on with what it collected. *)
Lemma warmup_loop_app (max_count : value) (pre rest : list record) :
  forall result : list warmup,
    Forall (fun r => has_id r = true) pre ->
    not_capped max_count (length result + length (List.filter pending pre)) ->
    warmup_loop max_count (pre ++ rest) result =
      warmup_loop max_count rest (result ++ map warmup_entry (List.filter pending pre)).
Proof.
  induction pre as [| r pre IH]; intros result Hids Hroom.
  - simpl. rewrite app_nil_r. reflexivity.
  - apply Forall_cons in Hids as [Hr Hpre].
    change ((r :: pre) ++ rest) with (r :: (pre ++ rest)).
    rewrite warmup_loop_step by exact Hr.
    simpl List.filter in *.
    destruct (pending r); [| apply IH; assumption].
    simpl length in Hroom. simpl map.
    rewrite (reached_not_capped _ _ _ Hroom) by (rewrite length_app; simpl; lia).
    rewrite IH; [rewrite <- app_assoc; reflexivity | exact Hpre |].
    rewrite length_app. simpl.
    replace (length result + 1 + length (List.filter pending pre))%nat
      with (length result + S (length (List.filter pending pre)))%nat by lia.
    exact Hroom.
Qed.

(** X12: a pending record delivered without an id makes the warm-up
    fetch raise [KeyError] to its caller, provided the cap was not
    reached by the pending records before it; the entries collected so
    far are lost and nothing is logged. *)
Theorem warmup_fetch_raises_on_missing_id
    svc self max_count (pre : list record) (bad : record) (rest : list record)
    (Hall : table_all svc (base_id self) (table_id self)
              {| req_view := Some "Warmup"; req_fields := None;
                 req_max_records := None |} = Ok (pre ++ bad :: rest))
    (Hpre : Forall (fun r => has_id r = true) pre)
    (Hroom : not_capped max_count (length (List.filter pending pre)))
    (Hpending : pending bad = true)
    (Hid : has_id bad = false) :
  get_pending_warmup_records svc self max_count = (Raise (KeyError "id"), []).
Proof.
  rewrite (get_pending_on_success _ _ _ _ Hall).
  rewrite warmup_loop_app by (simpl; assumption).
  rewrite pending_tests in Hpending. apply andb_true_iff in Hpending as [Hs Hf].
  apply negb_true_iff in Hs, Hf.
  simpl. rewrite Hs, Hf. unfold record_id_item, has_id in *.
  destruct (rec_id bad); [discriminate Hid | reflexivity].
Qed.

Lemma warmup_fetch_raises_on_missing_id_witness :
  get_pending_warmup_records
    (Fixtures.static_service [Fixtures.acct1; Fixtures.acct_noid; Fixtures.acct4])
    Fixtures.some_client (VInt 5)
  = (Raise (KeyError "id"), []).
Proof.
  apply (warmup_fetch_raises_on_missing_id
           (Fixtures.static_service [Fixtures.acct1; Fixtures.acct_noid; Fixtures.acct4])
           Fixtures.some_client (VInt 5)
           [Fixtures.acct1] Fixtures.acct_noid [Fixtures.acct4]).
  - reflexivity.
  - repeat constructor.
  - right. exists 5. split; [reflexivity | vm_compute; reflexivity].
  - reflexivity.
  - reflexivity.
Defined.

(** With a truthy [max_count] that is not a number the comparison after
    the first append raises. *)
Lemma warmup_loop_not_a_number (max_count : value) (records : list record) :
  truthy max_count = true ->
  is_number max_count = false ->
  forall result : list warmup,
    Forall (fun r => has_id r = true) records ->
    warmup_loop max_count records result =
      match List.filter pending records with
      | [] => Ok result
      | _ :: _ => Raise TypeError
      end.
Proof.
  intros Ht Hn. induction records as [| r rest IH]; intros result Hids.
  - reflexivity.
  - apply Forall_cons in Hids as [Hr Hrest].
    rewrite warmup_loop_step by exact Hr. simpl List.filter.
    destruct (pending r); [| apply IH; exact Hrest].
    unfold reached. rewrite Ht.
    destruct max_count; simpl in *; try discriminate; reflexivity.
Qed.

(** X13: a truthy [max_count] that is neither an integer nor a boolean
    (a non-empty string or list) is only noticed when a record is
    pending: the fetch then raises [TypeError] to its caller, and it
    returns the empty list when no record of the view is pending. *)
Theorem warmup_fetch_non_numeric_cap svc self max_count records
    (Hall : table_all svc (base_id self) (table_id self)
              {| req_view := Some "Warmup"; req_fields := None;
                 req_max_records := None |} = Ok records)
    (Hids : Forall (fun r => has_id r = true) records)
    (Htruthy : truthy max_count = true)
    (Hnum : is_number max_count = false) :
  result_of (get_pending_warmup_records svc self max_count) =
    match List.filter pending records with
    | [] => Ok []
    | _ :: _ => Raise TypeError
    end.
Proof.
  rewrite (get_pending_on_success _ _ _ _ Hall). simpl.
  apply warmup_loop_not_a_number; assumption.
Qed.

Lemma warmup_fetch_non_numeric_cap_witness :
  result_of (get_pending_warmup_records
               (Fixtures.static_service [Fixtures.acct2; Fixtures.acct1])
               Fixtures.some_client (VStr "3")) = Raise TypeError /\
  result_of (get_pending_warmup_records
               (Fixtures.static_service [Fixtures.acct2; Fixtures.acct3])
               Fixtures.some_client (VStr "3")) = Ok [].
Proof.
  split.
  - apply (warmup_fetch_non_numeric_cap
             (Fixtures.static_service [Fixtures.acct2; Fixtures.acct1])
             Fixtures.some_client (VStr "3") [Fixtures.acct2; Fixtures.acct1]);
      [reflexivity | repeat constructor | reflexivity | reflexivity].
  - apply (warmup_fetch_non_numeric_cap
             (Fixtures.static_service [Fixtures.acct2; Fixtures.acct3])
             Fixtures.some_client (VStr "3") [Fixtures.acct2; Fixtures.acct3]);
      [reflexivity | repeat constructor | reflexivity | reflexivity].
Defined.

(** When the test after the first append always succeeds, the loop stops
    at the first pending record. *)
Lemma warmup_loop_first_only (max_count : value) (records : list record) :
  (forall k : nat, reached max_count (S k) = Ok true) ->
  forall result : list warmup,
    Forall (fun r => has_id r = true) records ->
    warmup_loop max_count records result =
      Ok (result ++ take 1 (map warmup_entry (List.filter pending records))).
Proof.
  intros Hreached. induction records as [| r rest IH]; intros result Hids.
  - simpl. rewrite app_nil_r. reflexivity.
  - apply Forall_cons in Hids as [Hr Hrest].
    rewrite warmup_loop_step by exact Hr. simpl List.filter.
    destruct (pending r); [| apply IH; exact Hrest].
    rewrite length_app. simpl length.
    replace (length result + 1)%nat with (S (length result)) by lia.
    rewrite Hreached. simpl. rewrite take_0. reflexivity.
Qed.

(** X14: with [max_count] equal to [True], to one or to a negative
    integer, the warm-up fetch returns the first pending record only
    (nothing when none is pending): a negative cap is not an empty
    result, and [True] counts as one. *)
Theorem warmup_fetch_first_pending_only svc self max_count records
    (Hall : table_all svc (base_id self) (table_id self)
              {| req_view := Some "Warmup"; req_fields := None;
                 req_max_records := None |} = Ok records)
    (Hids : Forall (fun r => has_id r = true) records)
    (Hcap : max_count = VBool true \/
            exists n, max_count = VInt n /\ n <= 1 /\ n <> 0) :
  result_of (get_pending_warmup_records svc self max_count) =
    Ok (take 1 (map warmup_entry (List.filter pending records))).
Proof.
  rewrite (get_pending_on_success _ _ _ _ Hall). simpl.
  rewrite warmup_loop_first_only; [reflexivity | | exact Hids].
  intros k. destruct Hcap as [-> | (n & -> & Hn1 & Hn0)];
    unfold reached, truthy, len_ge.
  - cbv beta iota. f_equal. apply Z.geb_le. lia.
  - apply Z.eqb_neq in Hn0. rewrite Hn0. cbv beta iota delta [negb].
    f_equal. apply Z.geb_le. lia.
Qed.

Lemma warmup_fetch_first_pending_only_witness :
  result_of (get_pending_warmup_records
               (Fixtures.static_service [Fixtures.acct2; Fixtures.acct1; Fixtures.acct4])
               Fixtures.some_client (VInt (-3))) =
    Ok [warmup_entry Fixtures.acct1] /\
  result_of (get_pending_warmup_records
               (Fixtures.static_service [Fixtures.acct2; Fixtures.acct1; Fixtures.acct4])
               Fixtures.some_client (VBool true)) =
    Ok [warmup_entry Fixtures.acct1].
Proof.
  split.
  - apply (warmup_fetch_first_pending_only
             (Fixtures.static_service [Fixtures.acct2; Fixtures.acct1; Fixtures.acct4])
             Fixtures.some_client (VInt (-3))
             [Fixtures.acct2; Fixtures.acct1; Fixtures.acct4]);
      [reflexivity | repeat constructor |].
    right. exists (-3). split; [reflexivity |]. split; [lia | discriminate].
  - apply (warmup_fetch_first_pending_only
             (Fixtures.static_service [Fixtures.acct2; Fixtures.acct1; Fixtures.acct4])
             Fixtures.some_client (VBool true)
             [Fixtures.acct2; Fixtures.acct1; Fixtures.acct4]);
      [reflexivity | repeat constructor |].
    left. reflexivity.
Defined.

(** X15: the warm-up fetch never logs, and it raises exactly what the
    listing raises. *)
Theorem warmup_fetch_silent svc self max_count :
  logged (get_pending_warmup_records svc self max_count) = [] /\
  forall e,
    table_all svc (base_id self) (table_id self)
      {| req_view := Some "Warmup"; req_fields := None; req_max_records := None |}
      = Raise e ->
    result_of (get_pending_warmup_records svc self max_count) = Raise e.
Proof.
  unfold get_pending_warmup_records, mbind, lift, logged, result_of.
  destruct (table_all svc _ _ _) as [records | e0]; simpl.
  - split; [| discriminate].
    destruct (warmup_loop max_count records []); reflexivity.
  - split; [reflexivity |]. intros e [= ->]. reflexivity.
Qed.

Lemma warmup_fetch_silent_witness :
  result_of (get_pending_warmup_records Fixtures.down_service Fixtures.some_client
               (VInt 2))
  = Raise (RequestException "connection refused").
Proof.
  exact (proj2 (warmup_fetch_silent Fixtures.down_service Fixtures.some_client (VInt 2))
           (RequestException "connection refused") eq_refl).
Defined.

(** ** Normalization of longer lists *)

(** X16: a linked-record value that is a list of several elements is
    reduced to its first element by all three normalizations, the other
    elements being dropped; and the two guarded normalizations (due
    records, warm-up) return for every value, never raising. *)
Theorem normalization_takes_first (x : value) (l : list value) (v : value)
    (d : gmap string value) (k : string) :
  normalize_package (VList (x :: l)) = Ok x /\
  flatten (VList (x :: l)) = Ok x /\
  normalize_array_field (<[ k := VList (x :: l) ]> d) k = Ok x /\
  normalize_package v = Ok (first_or_self v) /\
  flatten v = Ok (first_or_self v).
Proof.
  repeat split.
  - rewrite (normalize_array_field_stored _ k (VList (x :: l))); [reflexivity |].
    apply lookup_insert_eq.
  - destruct v as [| b | z | s | [| y l']]; reflexivity.
  - destruct v as [| b | z | s | [| y l']]; reflexivity.
Qed.

(** ** Construction: order of the checks and accepted configurations *)

Lemma table_map_lookup env key config :
  table_map env !! key = Some config ->
  supported_key key /\ key <> EmptyString /\ truthy_str (cfg_view config) = true.
Proof.
  unfold table_map, supported_key. intros H.
  apply lookup_insert_Some in H as [[<- <-] | [_ H]];
    [split; [auto | split; [discriminate | reflexivity]] |].
  apply lookup_insert_Some in H as [[<- <-] | [_ H]];
    [split; [auto | split; [discriminate | reflexivity]] |].
  apply lookup_insert_Some in H as [[<- <-] | [_ H]];
    [split; [auto | split; [discriminate | reflexivity]] |].
  rewrite lookup_empty in H. discriminate H.
Qed.

Lemma table_map_supported env key :
  supported_key key -> is_Some (table_map env !! key).
Proof.
  unfold table_map. intros [-> | [-> | ->]].
  - rewrite lookup_insert_eq. eauto.
  - rewrite lookup_insert_ne, lookup_insert_eq by discriminate. eauto.
  - rewrite !lookup_insert_ne, lookup_insert_eq by discriminate. eauto.
Qed.

(** Construction with a key that [table_map] resolves to a complete
    configuration. *)
Lemma init_with_config env key config :
  truthy_str (getenv env "AIRTABLE_API_KEY") = true ->
  table_map env !! key = Some config ->
  truthy_str (cfg_base_id config) = true ->
  truthy_str (cfg_table_id config) = true ->
  __init__ env (Some key) =
    Ok {| api_key := getenv env "AIRTABLE_API_KEY";
          base_id := cfg_base_id config;
          table_id := cfg_table_id config;
          view_name := cfg_view config |}.
Proof.
  intros Hapi Hcfg Hbase Htable.
  destruct (table_map_lookup _ _ _ Hcfg) as (_ & Hne & Hview).
  unfold __init__. rewrite Hapi, (nonempty_truthy key Hne), Hcfg. simpl.
  rewrite Hbase, Htable, Hview. reflexivity.
Qed.

(** X17: the API key is checked before anything else.  When it is unset
    or empty, construction raises the API-key [ValueError] whatever
    [table_key] is, even an unsupported one. *)
Theorem init_checks_api_key_first env table_key
    (Hmiss : missing (getenv env "AIRTABLE_API_KEY")) :
  __init__ env table_key = Raise (ValueError msg_missing_api_key).
Proof.
  unfold __init__. rewrite (missing_falsy _ Hmiss). reflexivity.
Qed.

Lemma init_checks_api_key_first_witness :
  __init__ (delete "AIRTABLE_API_KEY" Fixtures.full_env) (Some "content_zoe")
  = Raise (ValueError "Missing AIRTABLE_API_KEY in environment variables").
Proof.
  apply (init_checks_api_key_first (delete "AIRTABLE_API_KEY" Fixtures.full_env)
           (Some "content_zoe")).
  left. reflexivity.
Defined.

(** X18: exactly three configuration keys are known -- content_alexis,
    content_maddison and warmup_accounts, compared as they are written.
    With the API key set, any other non-empty key raises the
    "Unsupported table key" [ValueError] that quotes the key. *)
Theorem init_rejects_unknown_key env key
    (Hapi : truthy_str (getenv env "AIRTABLE_API_KEY") = true)
    (Hne : key <> EmptyString)
    (Hunknown : ~ supported_key key) :
  table_map env !! key = None /\
  __init__ env (Some key) = Raise (ValueError (msg_unsupported key)).
Proof.
  assert (table_map env !! key = None) as Hnone.
  { destruct (table_map env !! key) as [config |] eqn:Hcfg; [| reflexivity].
    destruct (table_map_lookup _ _ _ Hcfg) as [Hs _]. contradiction. }
  split; [exact Hnone |].
  unfold __init__. rewrite Hapi, (nonempty_truthy key Hne), Hnone. reflexivity.
Qed.

Lemma init_rejects_unknown_key_witness :
  table_map Fixtures.full_env !! "Content_Alexis" = None /\
  __init__ Fixtures.full_env (Some "Content_Alexis")
  = Raise (ValueError "Unsupported table key: 'Content_Alexis'").
Proof.
  apply (init_rejects_unknown_key Fixtures.full_env "Content_Alexis").
  - reflexivity.
  - discriminate.
  - intros [H | [H | H]]; discriminate H.
Defined.

Lemma init_keyless env table_key :
  truthy_str (getenv env "AIRTABLE_API_KEY") = true ->
  truthy_str table_key = false ->
  __init__ env table_key =
    Ok {| api_key := getenv env "AIRTABLE_API_KEY";
          base_id := None; table_id := None; view_name := None |}.
Proof.
  intros Hapi Hkey. unfold __init__. rewrite Hapi. simpl.
  destruct table_key as [key |]; [| reflexivity].
  rewrite Hkey. reflexivity.
Qed.

(** X19: with the API key set and no configuration key -- [None] or the
    empty string -- construction succeeds and leaves base id, table id
    and view name unset, whatever else the environment holds; the empty
    string is treated as no key, not as an unsupported one. *)
Theorem init_without_key env table_key
    (Hapi : truthy_str (getenv env "AIRTABLE_API_KEY") = true)
    (Hkey : truthy_str table_key = false) :
  __init__ env table_key =
    Ok {| api_key := getenv env "AIRTABLE_API_KEY";
          base_id := None; table_id := None; view_name := None |} /\
  __init__ env table_key = __init__ env None.
Proof.
  rewrite (init_keyless env table_key Hapi Hkey).
  rewrite (init_keyless env None Hapi eq_refl). split; reflexivity.
Qed.

Lemma init_without_key_witness :
  __init__ (<[ "AIRTABLE_API_KEY" := "key" ]> ∅) (Some EmptyString) =
    Ok {| api_key := Some "key";
          base_id := None; table_id := None; view_name := None |} /\
  __init__ (<[ "AIRTABLE_API_KEY" := "key" ]> ∅) (Some EmptyString) =
    __init__ (<[ "AIRTABLE_API_KEY" := "key" ]> ∅) None.
Proof.
  exact (init_without_key (<[ "AIRTABLE_API_KEY" := "key" ]> ∅) (Some EmptyString)
           eq_refl eq_refl).
Defined.

(** X20: construction succeeds whenever the configuration is not a
    refused one: the API key is set and the configuration key, if any, is
    supported with its base id and table id set.  A client built with a
    configuration key then has a non-empty base id and table id and the
    view 'Unposted' or 'Warmup'. *)
Theorem init_accepts_when_configured env table_key
    (Hgood : ~ misconfigured env table_key) :
  exists self,
    __init__ env table_key = Ok self /\
    api_key self = getenv env "AIRTABLE_API_KEY" /\
    (truthy_str table_key = true ->
       truthy_str (base_id self) = true /\
       truthy_str (table_id self) = true /\
       (view_name self = Some "Unposted" \/ view_name self = Some "Warmup")).
Proof.
  assert (forall o, ~ missing o -> truthy_str o = true) as Hpresent.
  { intros [s |] Hn; simpl.
    - destruct (String.eqb_spec s EmptyString) as [-> | _]; [| reflexivity].
      contradiction Hn. right. reflexivity.
    - contradiction Hn. left. reflexivity. }
  assert (truthy_str (getenv env "AIRTABLE_API_KEY") = true) as Hapi.
  { apply Hpresent. intros H. apply Hgood. left. exact H. }
  destruct (truthy_str table_key) eqn:Hkey.
  - destruct table_key as [key |]; [| discriminate Hkey].
    assert (key <> EmptyString) as Hne by (intros ->; discriminate Hkey).
    destruct (table_map env !! key) as [config |] eqn:Hcfg.
    + assert (truthy_str (cfg_base_id config) = true) as Hbase.
      { apply Hpresent. intros H. apply Hgood. right. exists key.
        rewrite Hcfg. auto. }
      assert (truthy_str (cfg_table_id config) = true) as Htable.
      { apply Hpresent. intros H. apply Hgood. right. exists key.
        rewrite Hcfg. auto. }
      eexists. split; [apply (init_with_config env key config); assumption |].
      simpl. split; [reflexivity |]. intros _. split; [exact Hbase |].
      split; [exact Htable |].
      revert Hcfg. unfold table_map. intros H.
      apply lookup_insert_Some in H as [[_ <-] | [_ H]]; [left; reflexivity |].
      apply lookup_insert_Some in H as [[_ <-] | [_ H]]; [left; reflexivity |].
      apply lookup_insert_Some in H as [[_ <-] | [_ H]]; [right; reflexivity |].
      rewrite lookup_empty in H. discriminate H.
    + contradiction Hgood. right. exists key. rewrite Hcfg. auto.
  - eexists. split; [apply init_keyless; assumption |].
    simpl. split; [reflexivity |]. discriminate.
Qed.

Lemma init_accepts_when_configured_witness :
  exists self,
    __init__ Fixtures.full_env (Some "content_maddison") = Ok self /\
    api_key self = getenv Fixtures.full_env "AIRTABLE_API_KEY" /\
    (truthy_str (Some "content_maddison") = true ->
       truthy_str (base_id self) = true /\
       truthy_str (table_id self) = true /\
       (view_name self = Some "Unposted" \/ view_name self = Some "Warmup")).
Proof.
  apply (init_accepts_when_configured Fixtures.full_env (Some "content_maddison")).
  intros [[H | H] | (key & [= <-] & _ & H)].
  - discriminate H.
  - discriminate H.
  - vm_compute in H. destruct H as [[H | H] | [[H | H] | [H | H]]]; discriminate H.
Defined.

(** ** From construction to a fetch *)

(** X21: a client constructed with the key content_alexis lists the view
    'Unposted' of the table named by ALEXIS_BASE_ID and
    ALEXIS_CONTENT_TABLE_ID; when that listing returns content records,
    its due-record fetch returns the first [max_count] records due today. *)
Theorem content_client_fetches_unposted_view env svc today_str max_count records
    (Hapi : truthy_str (getenv env "AIRTABLE_API_KEY") = true)
    (Hbase : truthy_str (getenv env "ALEXIS_BASE_ID") = true)
    (Htable : truthy_str (getenv env "ALEXIS_CONTENT_TABLE_ID") = true)
    (Hall : table_all svc (getenv env "ALEXIS_BASE_ID")
              (getenv env "ALEXIS_CONTENT_TABLE_ID")
              {| req_view := Some "Unposted"; req_fields := None;
                 req_max_records := None |} = Ok records)
    (Hwf : Forall (fun r => content_record r = true) records)
    (Hcap : 1 <= max_count) :
  exists self,
    __init__ env (Some "content_alexis") = Ok self /\
    result_of (get_unposted_records_for_today svc self today_str max_count) =
      Ok (take (Z.to_nat max_count)
            (map unposted_entry (List.filter (due_today today_str) records))).
Proof.
  eexists. split.
  - apply (init_with_config env "content_alexis"
             {| cfg_base_id := getenv env "ALEXIS_BASE_ID";
                cfg_table_id := getenv env "ALEXIS_CONTENT_TABLE_ID";
                cfg_view := Some "Unposted" |}); try assumption.
    unfold table_map. apply lookup_insert_eq.
  - apply get_unposted_exact; simpl; assumption.
Qed.

Lemma content_client_fetches_unposted_view_witness :
  exists self,
    __init__ Fixtures.full_env (Some "content_alexis") = Ok self /\
    result_of (get_unposted_records_for_today
                 (Fixtures.static_service [Fixtures.post1; Fixtures.post2; Fixtures.post3])
                 self "2025-04-05" 2) =
      Ok (take (Z.to_nat 2)
            (map unposted_entry
               (List.filter (due_today "2025-04-05")
                  [Fixtures.post1; Fixtures.post2; Fixtures.post3]))).
Proof.
  apply (content_client_fetches_unposted_view Fixtures.full_env
           (Fixtures.static_service [Fixtures.post1; Fixtures.post2; Fixtures.post3])
           "2025-04-05" 2 [Fixtures.post1; Fixtures.post2; Fixtures.post3]).
  - reflexivity.
  - reflexivity.
  - reflexivity.
  - reflexivity.
  - repeat constructor.
  - lia.
Defined.

(** X22: a client constructed with the key warmup_accounts lists the view
    'Warmup' of the table named by IG_ARMY_BASE_ID and
    IG_ARMY_WARMUP_ACCOUNTS_TABLE_ID; when that listing returns records
    that carry ids, its warm-up fetch without a cap returns every pending
    record. *)
Theorem warmup_client_fetches_warmup_view env svc records
    (Hapi : truthy_str (getenv env "AIRTABLE_API_KEY") = true)
    (Hbase : truthy_str (getenv env "IG_ARMY_BASE_ID") = true)
    (Htable : truthy_str (getenv env "IG_ARMY_WARMUP_ACCOUNTS_TABLE_ID") = true)
    (Hall : table_all svc (getenv env "IG_ARMY_BASE_ID")
              (getenv env "IG_ARMY_WARMUP_ACCOUNTS_TABLE_ID")
              {| req_view := Some "Warmup"; req_fields := None;
                 req_max_records := None |} = Ok records)
    (Hids : Forall (fun r => has_id r = true) records) :
  exists self,
    __init__ env (Some "warmup_accounts") = Ok self /\
    get_pending_warmup_records svc self VNone =
      (Ok (map warmup_entry (List.filter pending records)), []).
Proof.
  eexists. split.
  - apply (init_with_config env "warmup_accounts"
             {| cfg_base_id := getenv env "IG_ARMY_BASE_ID";
                cfg_table_id := getenv env "IG_ARMY_WARMUP_ACCOUNTS_TABLE_ID";
                cfg_view := Some "Warmup" |}); try assumption.
    unfold table_map. rewrite !lookup_insert_ne by discriminate.
    apply lookup_insert_eq.
  - rewrite (get_pending_on_success _ _ _ records) by (simpl; exact Hall).
    rewrite warmup_loop_unbounded by (reflexivity || exact Hids). reflexivity.
Qed.

Lemma warmup_client_fetches_warmup_view_witness :
  exists self,
    __init__ Fixtures.full_env (Some "warmup_accounts") = Ok self /\
    get_pending_warmup_records
      (Fixtures.static_service [Fixtures.acct1; Fixtures.acct2; Fixtures.acct4])
      self VNone =
      (Ok (map warmup_entry
             (List.filter pending [Fixtures.acct1; Fixtures.acct2; Fixtures.acct4])),
       []).
Proof.
  apply (warmup_client_fetches_warmup_view Fixtures.full_env
           (Fixtures.static_service [Fixtures.acct1; Fixtures.acct2; Fixtures.acct4])
           [Fixtures.acct1; Fixtures.acct2; Fixtures.acct4]).
  - reflexivity.
  - reflexivity.
  - reflexivity.
  - reflexivity.
  - repeat constructor.
Defined.
